(** * Text-to-PPT generator: a shallow embedding of [app.py]

    The development follows the layout of the program:
    - module [PyStr]: the Python string operations the program relies
      on ([split], [strip], slicing);
    - module [Py]: exceptions and results;
    - module [Pptx]: the structured slide description handed to the
      document library;
    - section [App]: the functions of [app.py] themselves
      ([generate_slide_titles], [generate_slide_content], [create_ppt],
      [get_download_link], [main]) over an explicit world state, with
      the backends, the document library and the file system as the
      parameter [env];
    - the properties of the generation pipeline and of deck assembly,
      then their instances at concrete inputs. *)

From Stdlib Require Import String Ascii.
From Stdlib Require Import List NArith ZArith Bool Lia.
Import ListNotations.
Open Scope list_scope.

(* ================================================================= *)
(** ** Python strings *)

Module PyStr.

(** A Python [str] is a sequence of Unicode code points. *)
Definition char := N.
Definition str := list char.

(** ASCII literals of the source, as code point sequences. *)
Definition lit (s : string) : str := map N_of_ascii (list_ascii_of_string s).
Arguments lit : simpl never.

Definition nl : char := 10%N.      (* "\n" *)
Definition colon : char := 58%N.   (* ":" *)
Definition space : char := 32%N.   (* " " *)
Definition slash : char := 47%N.   (* "/" *)
Definition bullet : char := 8226%N. (* U+2022 *)

(** [c in chars] for a character and a string of characters. *)
Definition mem (c : char) (chars : str) : bool := existsb (N.eqb c) chars.

(** Truthiness of a string: [bool(s)] is [len(s) > 0]. *)
Definition truthy (s : str) : bool :=
  match s with [] => false | _ :: _ => true end.

(** [str.isspace] on one code point: the whitespace code points of
    CPython's Unicode database. *)
Definition isspace (c : char) : bool :=
  ((9 <=? c) && (c <=? 13) || (28 <=? c) && (c <=? 32)
   || (c =? 133) || (c =? 160) || (c =? 5760)
   || (8192 <=? c) && (c <=? 8202)
   || (c =? 8232) || (c =? 8233) || (c =? 8239) || (c =? 8287)
   || (c =? 12288))%N.

(** [s.split(sep)] for a one-character separator: every occurrence
    splits, and the result always has at least one element. *)
Fixpoint split (sep : char) (s : str) : list str :=
  match s with
  | [] => [[]]
  | c :: r =>
      if (c =? sep)%N then [] :: split sep r
      else match split sep r with
           | h :: t => (c :: h) :: t
           | [] => [[c]]
           end
  end.

Fixpoint drop_while (p : char -> bool) (s : str) : str :=
  match s with
  | [] => []
  | c :: r => if p c then drop_while p r else s
  end.

Definition lstrip_by (p : char -> bool) (s : str) : str := drop_while p s.
Definition rstrip_by (p : char -> bool) (s : str) : str :=
  rev (drop_while p (rev s)).

(** The common core of [s.strip()] and [s.strip(chars)]: remove the
    longest prefix and the longest suffix made of characters in [p]. *)
Definition strip_by (p : char -> bool) (s : str) : str :=
  rstrip_by p (lstrip_by p s).

(** [s.strip()] *)
Definition strip (s : str) : str := strip_by isspace s.

(** [s.strip(chars)] *)
Definition strip_chars (chars : str) (s : str) : str :=
  strip_by (fun c => mem c chars) s.

(** [s[i:j]] for non-negative constant bounds; slicing never raises. *)
Definition slice (i j : nat) (s : str) : str := firstn (j - i) (skipn i s).

(** Edge conditions used to describe the result of a strip. *)
Definition clean_left (p : char -> bool) (s : str) : Prop :=
  match s with [] => True | c :: _ => p c = false end.
Definition clean_right (p : char -> bool) (s : str) : Prop :=
  clean_left p (rev s).

End PyStr.
Import PyStr.

(* ================================================================= *)
(** ** Exceptions and results *)

Module Py.

Inductive exn_class :=
| ValueError | AttributeError | IndexError | OSError
| FileNotFoundError | RuntimeError.

(** An instance of Python's [Exception]: its class and its message
    ([str(e)]).  This is what [except Exception] catches. *)
Record exn := Exc { exn_class_of : exn_class; exn_msg : str }.

(** The result of evaluating Python code: a value or a raised exception. *)
Inductive outcome (A : Type) :=
| Ret (a : A)
| Raise (e : exn).
Arguments Ret {A} a.
Arguments Raise {A} e.

Definition obind {A B} (c : outcome A) (k : A -> outcome B) : outcome B :=
  match c with
  | Ret a => k a
  | Raise e => Raise e
  end.

Fixpoint mapM {A B} (f : A -> outcome B) (l : list A) : outcome (list B) :=
  match l with
  | [] => Ret []
  | x :: r =>
      obind (f x) (fun y => obind (mapM f r) (fun ys => Ret (y :: ys)))
  end.

Fixpoint foldM {A B} (f : B -> A -> outcome B) (l : list A) (b : B)
  : outcome B :=
  match l with
  | [] => Ret b
  | x :: r => obind (f b x) (fun b' => foldM f r b')
  end.

(** The exception of an attribute access on [None]. *)
Definition none_attribute_error (attr : str) : exn :=
  Exc AttributeError
      (lit "'NoneType' object has no attribute '" ++ attr ++ lit "'").

(** Calling the [str] method [attr] on a value that may be [None]. *)
Definition as_str (attr : str) (o : option str) : outcome str :=
  match o with
  | Some s => Ret s
  | None => Raise (none_attribute_error attr)
  end.

(** [l[-1]] *)
Definition index_last {A} (l : list A) : outcome A :=
  match rev l with
  | x :: _ => Ret x
  | [] => Raise (Exc IndexError (lit "list index out of range"))
  end.

(** Value of one ASCII hexadecimal digit. *)
Definition hex_digit (c : char) : option Z :=
  if ((48 <=? c) && (c <=? 57))%N then Some (Z.of_N c - 48)%Z
  else if ((97 <=? c) && (c <=? 102))%N then Some (Z.of_N c - 87)%Z
  else if ((65 <=? c) && (c <=? 70))%N then Some (Z.of_N c - 55)%Z
  else None.

Fixpoint hex_value (acc : Z) (s : str) : option Z :=
  match s with
  | [] => Some acc
  | c :: r =>
      match hex_digit c with
      | Some d => hex_value (16 * acc + d)%Z r
      | None => None
      end
  end.

End Py.
Import Py.

Declare Scope py_scope.
Delimit Scope py_scope with py.
Notation "x <~ c ;; k" := (obind c (fun x => k))
  (at level 61, c at next level, right associativity) : py_scope.
Open Scope py_scope.

(* ================================================================= *)
(** ** The slide description handed to the document library *)

Module Pptx.

Record RGBColor := RGB { red : Z; green : Z; blue : Z }.

(** [RGBColor(r, g, b)]: each component must lie in [0, 255]. *)
Definition mkRGBColor (r g b : Z) : outcome RGBColor :=
  if ((0 <=? r) && (r <=? 255) && (0 <=? g) && (g <=? 255)
      && (0 <=? b) && (b <=? 255))%Z
  then Ret (RGB r g b)
  else Raise (Exc ValueError (lit "RGBColor() takes three integer values 0-255")).

(** [Pt(n)]: a length in English Metric Units. *)
Definition Pt (points : Z) : Z := (points * 12700)%Z.

Record Run := mkRun {
  run_text : str;
  font_size : option Z;
  font_rgb : option RGBColor }.

(** A placeholder shape: its placeholder index, the text assigned to
    it, the runs of its text frame by paragraph, and its outline. *)
Record Shape := mkShape {
  idx : Z;
  text : str;
  paragraphs : list (list Run);
  line_rgb : option RGBColor;
  line_width : option Z }.

Record Picture := mkPicture {
  image_file : str;
  pic_left : Z;
  pic_top : Z;
  pic_width : Z }.

Record Slide := mkSlide {
  layout : nat;
  background : option RGBColor;
  placeholders : list Shape;
  pictures : list Picture }.

Definition Presentation := list Slide.

Definition new_placeholder (i : Z) : Shape := mkShape i [] [[]] None None.

(** The characters the document library cannot put into XML: the
    surrogates, U+FFFE and U+FFFF.  An assignment of a text that holds
    one raises. *)
Definition xml_char (c : char) : bool :=
  negb ((55296 <=? c) && (c <=? 57343) || (c =? 65534) || (c =? 65535))%N.

Definition xml_compatible (s : str) : bool := forallb xml_char s.

Definition xml_error : exn :=
  Exc ValueError
      (lit "All strings must be XML compatible: Unicode or ASCII, no NULL bytes or control characters").

(** The control characters the library writes as [_xHHHH_]: all below
    U+0020 but tab, line feed and vertical tab (the latter two separate
    paragraphs and lines). *)
Definition escaped_char (c : char) : bool :=
  ((c <=? 8) || (12 <=? c) && (c <=? 31))%N.

Definition upper_hex_digit (d : N) : char :=
  (if d <? 10 then 48 + d else 55 + d)%N.

Definition escape_char (c : char) : str :=
  if escaped_char c then
    lit "_x00" ++ [upper_hex_digit (c / 16); upper_hex_digit (c mod 16)]
    ++ lit "_"
  else [c].

(** The text read back from a shape after [shape.text = s]. *)
Definition escape_ctrl_chars (s : str) : str := flat_map escape_char s.

(** [run.font.size = Pt(size)]: the size must lie in 1 to 4000 points. *)
Definition font_size_ok (size : Z) : bool :=
  ((100 <=? size * 100) && (size * 100 <=? 400000))%Z.

Definition font_size_error : exn :=
  Exc ValueError (lit "value must be in range 100 to 400000 inclusive").

(** [ln.width = emu]: the width must lie in 0 to 20116800 EMU (1584 points). *)
Definition line_width_ok (emu : Z) : bool :=
  ((0 <=? emu) && (emu <=? 20116800))%Z.

Definition line_width_error : exn :=
  Exc ValueError (lit "value must be in range 0 to 20116800 inclusive").

(** [prs.slides.add_slide(prs.slide_layouts[n])] on the default
    template: layout 0 ("Title Slide") carries a title and a subtitle
    placeholder, layout 1 ("Title and Content") a title and a body
    placeholder. *)
Definition new_slide (n : nat) : Slide :=
  mkSlide n None [new_placeholder 0; new_placeholder 1] [].

(** [slide.shapes.title]: the first placeholder whose index is 0. *)
Definition shapes_title (s : Slide) : option Shape :=
  find (fun sh => (idx sh =? 0)%Z) (placeholders s).

(** The placeholder the body loop of [create_ppt] writes to. *)
Definition body_placeholder (s : Slide) : option Shape :=
  find (fun sh => (idx sh =? 1)%Z) (placeholders s).

Definition title_text (s : Slide) : option str :=
  option_map text (shapes_title s).
Definition body_text (s : Slide) : option str :=
  option_map text (body_placeholder s).

(** Apply an update through the attribute [attr] of
    [slide.shapes.title], which is [None] when the slide has no title
    placeholder. *)
Fixpoint update_title (attr : str) (f : Shape -> outcome Shape)
         (phs : list Shape) : outcome (list Shape) :=
  match phs with
  | [] => Raise (none_attribute_error attr)
  | sh :: r =>
      if (idx sh =? 0)%Z then sh' <~ f sh ;; Ret (sh' :: r)
      else r' <~ update_title attr f r ;; Ret (sh :: r')
  end.

Definition on_title (attr : str) (f : Shape -> outcome Shape) (s : Slide)
  : outcome Slide :=
  phs <~ update_title attr f (placeholders s) ;;
  Ret (mkSlide (layout s) (background s) phs (pictures s)).

Definition set_background (c : RGBColor) (s : Slide) : Slide :=
  mkSlide (layout s) (Some c) (placeholders s) (pictures s).

Definition add_picture (p : Picture) (s : Slide) : Slide :=
  mkSlide (layout s) (background s) (placeholders s) (pictures s ++ [p]).

Definition has_border (sh : Shape) : bool :=
  match line_rgb sh, line_width sh with
  | None, None => false
  | _, _ => true
  end.

End Pptx.
Import Pptx.

(* ================================================================= *)
(** ** What lies outside [app.py] *)

(** The backends, the document library and the file system, as the
    program sees them.  Both text backends receive the number of
    backend calls made so far, so that successive calls may answer
    differently. *)
Record Env := mkEnv {
  (** hosted chat completion: API key, system and user message,
      [max_tokens]; the content of the first choice, which may be [None] *)
  openai_chat : nat -> str -> str -> str -> Z -> outcome (option str);
  (** local text generation: prompt, [max_new_tokens]; the
      ['generated_text'] of the first sequence *)
  generator : nat -> str -> Z -> outcome str;
  (** [int(s, 16)] on strings that are not plain runs of ASCII
      hexadecimal digits (signs, blanks, prefixes, other digits) *)
  int16_other : str -> outcome Z;
  (** [c.isalnum()] for code points outside ASCII *)
  unicode_isalnum : char -> bool;
  (** the run texts, by paragraph, of a text frame that holds the given
      text after an assignment to [shape.text] *)
  text_runs : str -> list (list str);
  (** [default.jpg] next to the program: absent, or present together
      with the result of inserting it into a slide *)
  default_jpg : option (outcome unit);
  (** [os.makedirs(dir, exist_ok=True)] *)
  os_makedirs : str -> outcome unit;
  (** whether [prs.save(path)] can write the file *)
  save_file : str -> outcome unit }.

(** The messages the program shows to the user. *)
Inductive Html :=
| Rule
| DownloadLink (data : Presentation) (filename : str).

Inductive Event :=
| StTitle (s : str)
| StWrite (s : str)
| StSubheader (s : str)
| StInfo (s : str)
| StWarning (s : str)
| StError (s : str)
| StSuccess (s : str)
| StMarkdown (h : Html).

(** The state the program acts on: the number of backend calls made,
    the messages shown (latest first) and the files written (latest first). *)
Record World := mkWorld {
  calls : nat;
  shown : list Event;
  disk : list (str * Presentation) }.

Definition str_eqb (a b : str) : bool :=
  if list_eq_dec N.eq_dec a b then true else false.

(** The file at [path], if any. *)
Definition read_file (w : World) (path : str) : option Presentation :=
  option_map snd (find (fun f => str_eqb (fst f) path) (disk w)).

(** Stateful, fallible computations. *)
Definition M (A : Type) := World -> outcome A * World.

Definition ret {A} (a : A) : M A := fun w => (Ret a, w).
Definition bind {A B} (c : M A) (k : A -> M B) : M B :=
  fun w => match c w with
           | (Ret a, w') => k a w'
           | (Raise e, w') => (Raise e, w')
           end.
Definition lift {A} (o : outcome A) : M A := fun w => (o, w).

(** [try: c  except Exception as e: h e] *)
Definition try_except {A} (c : M A) (h : exn -> M A) : M A :=
  fun w => match c w with
           | (Ret a, w') => (Ret a, w')
           | (Raise e, w') => h e w'
           end.

Notation "x <- c ;; k" := (bind c (fun x => k))
  (at level 61, c at next level, right associativity) : py_scope.
Notation "c ;;; k" := (bind c (fun _ => k))
  (at level 61, right associativity) : py_scope.

(** [[f(x) for x in l]] with an effectful [f] *)
Fixpoint for_each {A B} (f : A -> M B) (l : list A) : M (list B) :=
  match l with
  | [] => ret []
  | x :: r => y <- f x ;; ys <- for_each f r ;; ret (y :: ys)
  end.

Definition show (e : Event) : M unit :=
  fun w => (Ret tt, mkWorld (calls w) (e :: shown w) (disk w)).

(* ================================================================= *)
(** ** The program *)

Record StyleConfig := mkStyle {
  bg_color : str;
  title_color : str;
  content_color : str;
  title_size : Z;
  content_size : Z;
  border_color : option str;
  border_width : Z }.

(** The defaults of [create_ppt]'s keyword parameters. *)
Definition default_style : StyleConfig :=
  mkStyle (lit "#FFFFFF") (lit "#000000") (lit "#000000") 30 16 None 0.

(** What the widgets of [main] return on one run of the script. *)
Record UI := mkUI {
  ui_topic : str;
  ui_api_key : str;
  ui_style : StyleConfig;
  ui_button : bool }.

(** The character set of [line.strip("-•1234567890. ")]. *)
Definition strip_set : str := lit "-" ++ [bullet] ++ lit "1234567890. ".

Definition sentinel : str := lit "(Content generation failed)".

(** Truthiness of an optional string argument ([None] and [""] are false). *)
Definition opt_truthy (o : option str) : bool :=
  match o with Some s => truthy s | None => false end.

Definition opt_str (o : option str) : str :=
  match o with Some s => s | None => [] end.

Section App.

Variable env : Env.

Definition call_openai (key system user : str) (max_tokens : Z)
  : M (option str) :=
  fun w => (openai_chat env (calls w) key system user max_tokens,
            mkWorld (S (calls w)) (shown w) (disk w)).

Definition call_generator (prompt : str) (max_new_tokens : Z) : M str :=
  fun w => (generator env (calls w) prompt max_new_tokens,
            mkWorld (S (calls w)) (shown w) (disk w)).

(** The list-building expressions of lines 35-36 and 51-52: strip each
    non-blank line, keep the non-empty results, at most five of them. *)
Definition parse_titles (lines : list str) : list str :=
  let titles :=
    map (strip_chars strip_set)
        (filter (fun line => truthy (strip line)) lines) in
  firstn 5 (filter truthy titles).

Definition fallback_titles (topic : str) : M (list str) :=
  let prompt :=
    lit "Generate 5 professional PowerPoint slide titles about: "
    ++ topic ++ [nl] ++ lit "1." in
  result <- call_generator prompt 80 ;;
  let lines := split nl result in
  ret (parse_titles lines).

Definition generate_slide_titles (topic : str) (openai_api_key : option str)
  : M (list str) :=
  if opt_truthy openai_api_key then
    try_except
      (response <- call_openai (opt_str openai_api_key)
         (lit "You are a professional PowerPoint presentation assistant. Generate 5 concise slide titles.")
         (lit "Generate 5 professional PowerPoint slide titles about: " ++ topic)
         200 ;;
       content <- lift (as_str (lit "split") response) ;;
       let titles := parse_titles (split nl content) in
       match titles with
       | [] =>
           show (StWarning (lit "OpenAI did not return any titles, using fallback.")) ;;;
           fallback_titles topic
       | _ :: _ => ret titles
       end)
      (fun e =>
         show (StWarning (lit "OpenAI error: " ++ exn_msg e
                          ++ lit ". Using fallback model.")) ;;;
         fallback_titles topic)
  else fallback_titles topic.

Definition generate_slide_content (title : str) (openai_api_key : option str)
  : M str :=
  try_except
    (if opt_truthy openai_api_key then
       response <- call_openai (opt_str openai_api_key)
         (lit "You are a PowerPoint slide content generator.")
         (lit "Write a professional 4-5 sentence paragraph for PowerPoint about: "
          ++ title)
         200 ;;
       content <- lift (as_str (lit "strip") response) ;;
       ret (strip content)
     else
       let prompt :=
         lit "Generate a professional PowerPoint paragraph about "
         ++ title ++ lit " (4-5 sentences):" in
       result <- call_generator prompt 120 ;;
       segment <- lift (index_last (split colon result)) ;;
       let content := strip segment in
       ret content)
    (fun e =>
       show (StError (lit "Error generating content for '" ++ title
                      ++ lit "': " ++ exn_msg e)) ;;;
       ret sentinel).

(** [int(s, 16)] *)
Definition int16 (s : str) : outcome Z :=
  match s with
  | [] => Raise (Exc ValueError (lit "invalid literal for int() with base 16"))
  | _ :: _ =>
      match hex_value 0 s with
      | Some v => Ret v
      | None => int16_other env s
      end
  end.

(** The expression
    [RGBColor(int(c[1:3], 16), int(c[3:5], 16), int(c[5:7], 16))]
    of lines 106, 111, 119, 125, 134 and 139. *)
Definition hex_rgb (c : str) : outcome RGBColor :=
  r <~ int16 (slice 1 3 c) ;;
  g <~ int16 (slice 3 5 c) ;;
  b <~ int16 (slice 5 7 c) ;;
  mkRGBColor r g b.

(** [shape.text = s]: the library refuses a text that is not XML
    compatible and stores the others with their control characters
    escaped. *)
Definition set_text (s : str) (sh : Shape) : outcome Shape :=
  if xml_compatible s then
    let stored := escape_ctrl_chars s in
    Ret (mkShape (idx sh) stored
                 (map (map (fun t => mkRun t None None)) (text_runs env stored))
                 (line_rgb sh) (line_width sh))
  else Raise xml_error.

(** [run.font.size = Pt(size)] *)
Definition set_font_size (size : Z) (r : Run) : outcome Run :=
  if font_size_ok size then
    Ret (mkRun (run_text r) (Some (Pt size)) (font_rgb r))
  else Raise font_size_error.

(** The body of the loops [for p in ...paragraphs: for run in p.runs:]. *)
Definition style_run (size : Z) (color : str) (r : Run) : outcome Run :=
  r <~ set_font_size size r ;;
  rgb <~ hex_rgb color ;;
  Ret (mkRun (run_text r) (font_size r) (Some rgb)).

Definition style_runs (size : Z) (color : str) (sh : Shape) : outcome Shape :=
  ps <~ mapM (mapM (style_run size color)) (paragraphs sh) ;;
  Ret (mkShape (idx sh) (text sh) ps (line_rgb sh) (line_width sh)).

(** Lines 128-140, for one placeholder of a content slide. *)
Definition fill_placeholder (cfg : StyleConfig) (content : str) (shape : Shape)
  : outcome Shape :=
  if (idx shape =? 1)%Z then
    shape <~ set_text content shape ;;
    shape <~ style_runs (content_size cfg) (content_color cfg) shape ;;
    if opt_truthy (border_color cfg) && (border_width cfg >? 0)%Z then
      rgb <~ hex_rgb (opt_str (border_color cfg)) ;;
      if line_width_ok (Pt (border_width cfg)) then
        Ret (mkShape (idx shape) (text shape) (paragraphs shape)
                     (Some rgb) (Some (Pt (border_width cfg))))
      else Raise line_width_error
    else Ret shape
  else Ret shape.

(** Lines 115-148: one iteration of the loop over [zip(titles, contents)]. *)
Definition add_content_slide (cfg : StyleConfig) (prs : Presentation)
           (tc : str * str) : outcome Presentation :=
  let '(title, content) := tc in
  let slide := new_slide 1 in
  fill <~ hex_rgb (bg_color cfg) ;;
  let slide := set_background fill slide in
  slide <~ on_title (lit "text") (set_text title) slide ;;
  slide <~ on_title (lit "text_frame")
             (style_runs (title_size cfg) (title_color cfg)) slide ;;
  phs <~ mapM (fill_placeholder cfg content) (placeholders slide) ;;
  let slide := mkSlide (layout slide) (background slide) phs (pictures slide) in
  slide <~ match default_jpg env with
           | Some inserted =>
               _ <~ inserted ;;
               Ret (add_picture (mkPicture (lit "default.jpg")
                                           (Pt 400) (Pt 100) (Pt 200)) slide)
           | None => Ret slide
           end ;;
  Ret (prs ++ [slide]).

(** Lines 98-148: the presentation as built in memory. *)
Definition build_slides (topic : str) (titles contents : list str)
           (cfg : StyleConfig) : outcome Presentation :=
  let title_slide := new_slide 0 in
  title_slide <~ on_title (lit "text") (set_text topic) title_slide ;;
  fill <~ hex_rgb (bg_color cfg) ;;
  let title_slide := set_background fill title_slide in
  title_slide <~
    on_title (lit "text_frame")
             (style_runs (title_size cfg) (title_color cfg)) title_slide ;;
  foldM (add_content_slide cfg) (combine titles contents) [title_slide].

(** [c.isalnum()] *)
Definition isalnum (c : char) : bool :=
  if (c <? 128)%N then
    ((48 <=? c) && (c <=? 57) || (65 <=? c) && (c <=? 90)
     || (97 <=? c) && (c <=? 122))%N
  else unicode_isalnum env c.

(** Line 150. *)
Definition safe_topic (topic : str) : str :=
  filter (fun c => isalnum c || existsb (N.eqb c) [32; 95; 45]%N) topic.

Definition output_path (topic : str) : str :=
  lit "generated_ppt/" ++ safe_topic topic ++ lit "_presentation.pptx".

Definition makedirs (dir : str) : M unit := lift (os_makedirs env dir).

(** [prs.save(path)] *)
Definition save (prs : Presentation) (path : str) : M unit :=
  fun w => match save_file env path with
           | Ret _ => (Ret tt, mkWorld (calls w) (shown w) ((path, prs) :: disk w))
           | Raise e => (Raise e, w)
           end.

Definition create_ppt (topic : str) (titles contents : list str)
           (cfg : StyleConfig) : M str :=
  prs <- lift (build_slides topic titles contents cfg) ;;
  makedirs (lit "generated_ppt") ;;;
  let path := output_path topic in
  save prs path ;;;
  ret path.

Definition get_download_link (path : str) : M Html :=
  fun w => match read_file w path with
           | Some data =>
               match index_last (split slash path) with
               | Ret filename => (Ret (DownloadLink data filename), w)
               | Raise e => (Raise e, w)
               end
           | None =>
               (Raise (Exc FileNotFoundError (lit "No such file or directory")), w)
           end.

Definition main (ui : UI) : M unit :=
  show (StTitle (lit "Free Text-to-PPT Generator (CHATGPT)")) ;;;
  show (StWrite (lit "Generate a professional PowerPoint presentation from a topic using AI.")) ;;;
  let topic := ui_topic ui in
  let openai_api_key := ui_api_key ui in
  show (StMarkdown Rule) ;;;
  show (StSubheader (lit "Customize Appearance")) ;;;
  if ui_button ui then
    if negb (truthy topic) then
      show (StWarning (lit "Please enter a topic."))
    else
      show (StInfo (lit "Generating slides with AI...")) ;;;
      titles <- generate_slide_titles topic (Some openai_api_key) ;;
      if match titles with [] => true | _ :: _ => false end
         || (length titles <? 1)%nat then
        show (StError (lit "Failed to generate slide titles. Please try again or check your API key."))
      else
        contents <- for_each (fun title =>
                      generate_slide_content title (Some openai_api_key)) titles ;;
        path <- create_ppt topic titles contents (ui_style ui) ;;
        show (StSuccess (9989%N :: lit " Presentation created!")) ;;;
        link <- get_download_link path ;;
        show (StMarkdown link)
  else ret tt.

End App.

Arguments set_text : simpl never.
Arguments style_runs : simpl never.
Arguments fill_placeholder : simpl never.
Arguments hex_rgb : simpl never.

(* ================================================================= *)
(** ** Vocabulary of the properties *)

(** A colour string [#hhhhhh] with six hexadecimal digits. *)
Definition is_hex (c : char) : bool :=
  match hex_digit c with Some _ => true | None => false end.

Definition well_formed_color (c : str) : bool :=
  match c with
  | [h; d1; d2; d3; d4; d5; d6] =>
      (h =? 35)%N && forallb is_hex [d1; d2; d3; d4; d5; d6]
  | _ => false
  end.

(** A border is drawn when line 136 takes its branch. *)
Definition border_drawn (cfg : StyleConfig) : bool :=
  opt_truthy (border_color cfg) && (border_width cfg >? 0)%Z.

Definition well_formed_style (cfg : StyleConfig) : bool :=
  well_formed_color (bg_color cfg)
  && well_formed_color (title_color cfg)
  && well_formed_color (content_color cfg)
  && (if border_drawn cfg then well_formed_color (opt_str (border_color cfg))
      else true).

(** The characters the file name keeps, as the specification lists them. *)
Definition kept_in_filename (env : Env) (c : char) : bool :=
  isalnum env c || (c =? 32)%N || (c =? 95)%N || (c =? 45)%N.

(** The strip set as a predicate on characters. *)
Definition in_strip_set (c : char) : bool := mem c strip_set.

(** A usable line yields a title: it is not blank and something is
    left of it after normalization. *)
Definition usable_line (line : str) : bool :=
  truthy (strip line) && truthy (strip_chars strip_set line).

Definition no_border (s : Slide) : Prop :=
  Forall (fun sh => has_border sh = false) (placeholders s).

Definition succeeds {A} (o : outcome A) : bool :=
  match o with Ret _ => true | Raise _ => false end.

(** An existing default image can be inserted, and the file system
    lets [create_ppt] store its result for [topic]. *)
Definition io_ok (env : Env) (topic : str) : bool :=
  match default_jpg env with
  | Some inserted => succeeds inserted
  | None => true
  end
  && succeeds (os_makedirs env (lit "generated_ppt"))
  && succeeds (save_file env (output_path env topic)).

(** An exception that comes from the default image or the file system. *)
Definition raised_by_io (env : Env) (topic : str) (e : exn) : Prop :=
  default_jpg env = Some (Raise e)
  \/ os_makedirs env (lit "generated_ppt") = Raise e
  \/ save_file env (output_path env topic) = Raise e.

(** The sizes and the outline width are ones the document library
    accepts: 1 to 4000 points, and at most 1584 points for an outline
    that is drawn. *)
Definition style_in_range (cfg : StyleConfig) : bool :=
  font_size_ok (title_size cfg) && font_size_ok (content_size cfg)
  && (if border_drawn cfg then line_width_ok (Pt (border_width cfg))
      else true).

(** Every text handed to the document library is XML compatible. *)
Definition texts_ok (topic : str) (titles contents : list str) : bool :=
  xml_compatible topic && forallb xml_compatible titles
  && forallb xml_compatible contents.


(** An exception of the document library, with its cause: a text that
    is not XML compatible, a font size or an outline width out of range. *)
Definition library_error (topic : str) (titles contents : list str)
           (cfg : StyleConfig) (e : exn) : Prop :=
  (e = xml_error /\ texts_ok topic titles contents = false)
  \/ (e = font_size_error
      /\ font_size_ok (title_size cfg) && font_size_ok (content_size cfg)
         = false)
  \/ (e = line_width_error
      /\ border_drawn cfg = true
      /\ line_width_ok (Pt (border_width cfg)) = false).

(** A content slide that shows the pair [(title, content)], as the
    library stores the two texts. *)
Definition slide_for (cfg : StyleConfig) (tc : str * str) (s : Slide) : Prop :=
  title_text s = Some (escape_ctrl_chars (fst tc))
  /\ body_text s = Some (escape_ctrl_chars (snd tc))
  /\ (border_drawn cfg = false -> no_border s).

(** The prompt of the local path of [generate_slide_content]. *)
Definition local_prompt (title : str) : str :=
  lit "Generate a professional PowerPoint paragraph about "
  ++ title ++ lit " (4-5 sentences):".

(** The world in which [main] calls [generate_slide_titles]. *)
Definition after_prelude (w : World) : World :=
  mkWorld (calls w)
    (StInfo (lit "Generating slides with AI...")
     :: StSubheader (lit "Customize Appearance")
     :: StMarkdown Rule
     :: StWrite (lit "Generate a professional PowerPoint presentation from a topic using AI.")
     :: StTitle (lit "Free Text-to-PPT Generator (CHATGPT)")
     :: shown w)
    (disk w).

Definition titles_error : Event :=
  StError (lit "Failed to generate slide titles. Please try again or check your API key.").

(* ================================================================= *)
(** ** Sample environments and inputs *)

Definition connection_error : exn := Exc RuntimeError (lit "Connection error.").

(** One run per non-empty paragraph. *)
Definition one_run_per_line (s : str) : list (list str) :=
  map (fun p => if truthy p then [p] else []) (split nl s).

(** No hosted backend, a given local model, no default image, a
    writable directory. *)
Definition local_env (gen : nat -> str -> Z -> outcome str) : Env :=
  mkEnv (fun _ _ _ _ _ => Raise connection_error)
        gen
        (fun _ => Raise (Exc ValueError (lit "invalid literal for int() with base 16")))
        (fun _ => false)
        one_run_per_line
        None
        (fun _ => Ret tt)
        (fun _ => Ret tt).

(** A local model that continues every prompt with two numbered lines. *)
Definition env_demo : Env :=
  local_env (fun _ prompt _ =>
               Ret (prompt ++ lit " Solar Power" ++ [nl] ++ lit "2. Wind Energy")).


(** A local model that answers the first call and fails afterwards. *)
Definition env_flaky : Env :=
  local_env (fun n prompt _ =>
               match n with
               | O => Ret (prompt ++ lit " Solar Power" ++ [nl] ++ lit "2. Wind Energy")
               | S _ => Raise connection_error
               end).

(** A local model that writes enumeration marks and nothing else. *)
Definition env_blank : Env := local_env (fun _ _ _ => Ret (lit "1. 2. 3.")).

Definition w0 : World := mkWorld 0 [] [].

(** A border colour is chosen but the width is left at 0. *)
Definition style_zero_width : StyleConfig :=
  mkStyle (lit "#FFFFFF") (lit "#000000") (lit "#000000") 30 16
          (Some (lit "#FF0000")) 0.

(** A red border two points wide on a dark background. *)
Definition style_bordered : StyleConfig :=
  mkStyle (lit "#1e1E2f") (lit "#FFFFFF") (lit "#c0C0c0") 36 18
          (Some (lit "#FF0000")) 2.

Definition demo_topic : str := lit "Renewable Energy".
Definition demo_titles : list str :=
  [lit "Solar Power"; lit "Wind Energy"; lit "Storage"].
Definition demo_contents : list str :=
  [lit "Sunlight becomes electricity."; lit "Turbines turn wind into power.";
   sentinel].

Definition ui_demo : UI :=
  mkUI (lit "Renewable Energy") [] default_style true.
(* ================================================================= *)
(** ** Further vocabulary: messages, prompts and styling *)

Definition dot : char := 46%N.        (* "." *)
Definition backslash : char := 92%N.  (* "\\" *)
Definition nul : char := 0%N.

(** The requests [generate_slide_titles] sends. *)
Definition titles_system_msg : str :=
  lit "You are a professional PowerPoint presentation assistant. Generate 5 concise slide titles.".
Definition titles_user_msg (topic : str) : str :=
  lit "Generate 5 professional PowerPoint slide titles about: " ++ topic.
Definition titles_prompt (topic : str) : str :=
  lit "Generate 5 professional PowerPoint slide titles about: "
  ++ topic ++ [nl] ++ lit "1.".

(** The requests [generate_slide_content] sends to the hosted backend. *)
Definition content_system_msg : str :=
  lit "You are a PowerPoint slide content generator.".
Definition content_user_msg (title : str) : str :=
  lit "Write a professional 4-5 sentence paragraph for PowerPoint about: "
  ++ title.

(** The messages of lines 54, 58 and 93. *)
Definition no_titles_warning : Event :=
  StWarning (lit "OpenAI did not return any titles, using fallback.").
Definition openai_error_warning (e : exn) : Event :=
  StWarning (lit "OpenAI error: " ++ exn_msg e ++ lit ". Using fallback model.").
Definition content_error (title : str) (e : exn) : Event :=
  StError (lit "Error generating content for '" ++ title
           ++ lit "': " ++ exn_msg e).

Definition none_error (attr : str) : exn := none_attribute_error attr.

Definition success_message : Event :=
  StSuccess (9989%N :: lit " Presentation created!").

(** The world after one backend call. *)
Definition after_call (w : World) : World :=
  mkWorld (S (calls w)) (shown w) (disk w).

(** The world after a message is shown. *)
Definition after_show (e : Event) (w : World) : World :=
  mkWorld (calls w) (e :: shown w) (disk w).

(** The world in which [main] ends when it does not enter the pipeline
    (everything of [after_prelude] but the last message). *)
Definition after_widgets (w : World) : World :=
  mkWorld (calls w)
    (StSubheader (lit "Customize Appearance")
     :: StMarkdown Rule
     :: StWrite (lit "Generate a professional PowerPoint presentation from a topic using AI.")
     :: StTitle (lit "Free Text-to-PPT Generator (CHATGPT)")
     :: shown w)
    (disk w).

(** The usual notation of a colour: ["#"] and two hexadecimal digits
    per component, in lower or upper case. *)
Definition hex_char (upper : bool) (d : Z) : char :=
  Z.to_N (if (d <? 10)%Z then 48 + d
          else if upper then 55 + d else 87 + d)%Z.

Definition hex_byte (upper : bool) (v : Z) : str :=
  [hex_char upper (v / 16)%Z; hex_char upper (v mod 16)%Z].

Definition format_hex_color (upper : bool) (r g b : Z) : str :=
  35%N :: hex_byte upper r ++ hex_byte upper g ++ hex_byte upper b.

(** A run carries the given size and the colour parsed from [color]. *)
Definition run_styled (env : Env) (size : Z) (color : str) (r : Run) : Prop :=
  font_size r = Some (Pt size)
  /\ exists rgb, hex_rgb env color = Ret rgb /\ font_rgb r = Some rgb.

(** A shape whose text frame holds the runs of its text, all styled. *)
Definition shape_styled (env : Env) (size : Z) (color : str) (sh : Shape)
  : Prop :=
  map (map run_text) (paragraphs sh) = text_runs env (text sh)
  /\ Forall (Forall (run_styled env size color)) (paragraphs sh).

(** The picture lines 145-148 insert. *)
Definition default_picture : Picture :=
  mkPicture (lit "default.jpg") (Pt 400) (Pt 100) (Pt 200).

Definition expected_pictures (env : Env) : list Picture :=
  match default_jpg env with
  | Some _ => [default_picture]
  | None => []
  end.

(** The base name of the file [create_ppt] writes. *)
Definition presentation_file (env : Env) (topic : str) : str :=
  safe_topic env topic ++ lit "_presentation.pptx".

(** The outcome of a call to the local model on the title prompt. *)
Definition local_titles (o : outcome str) : outcome (list str) :=
  match o with
  | Ret raw => Ret (parse_titles (split nl raw))
  | Raise e => Raise e
  end.

(** The outline of a body placeholder: the parsed border colour and
    the width when a border is drawn, none otherwise. *)
Definition body_outline (env : Env) (cfg : StyleConfig) (sh : Shape) : Prop :=
  if border_drawn cfg then
    exists rgb,
      hex_rgb env (opt_str (border_color cfg)) = Ret rgb
      /\ line_rgb sh = Some rgb
      /\ line_width sh = Some (Pt (border_width cfg))
  else has_border sh = false.

(** The title slide as [create_ppt] leaves it. *)
Definition styled_title_slide (env : Env) (cfg : StyleConfig)
           (fill : RGBColor) (topic : str) (s : Slide) : Prop :=
  exists tsh,
    s = mkSlide 0 (Some fill) [tsh; new_placeholder 1] []
    /\ idx tsh = 0%Z /\ text tsh = escape_ctrl_chars topic
    /\ shape_styled env (title_size cfg) (title_color cfg) tsh
    /\ has_border tsh = false.

(** A content slide as [create_ppt] leaves it. *)
Definition styled_content_slide (env : Env) (cfg : StyleConfig)
           (fill : RGBColor) (tc : str * str) (s : Slide) : Prop :=
  exists tsh bsh,
    s = mkSlide 1 (Some fill) [tsh; bsh] (expected_pictures env)
    /\ idx tsh = 0%Z /\ text tsh = escape_ctrl_chars (fst tc)
    /\ shape_styled env (title_size cfg) (title_color cfg) tsh
    /\ has_border tsh = false
    /\ idx bsh = 1%Z /\ text bsh = escape_ctrl_chars (snd tc)
    /\ shape_styled env (content_size cfg) (content_color cfg) bsh
    /\ body_outline env cfg bsh.

(* ================================================================= *)
(** ** Further sample environments *)

Definition sample_env (chat : nat -> str -> str -> str -> Z -> outcome (option str))
           (gen : nat -> str -> Z -> outcome str)
           (jpg : option (outcome unit))
           (saving : str -> outcome unit) : Env :=
  mkEnv chat gen
        (fun _ => Raise (Exc ValueError (lit "invalid literal for int() with base 16")))
        (fun _ => false)
        one_run_per_line
        jpg
        (fun _ => Ret tt)
        saving.

Definition two_lines : str :=
  lit "1. Solar Power" ++ [nl] ++ lit "2. Wind Energy".


(** A hosted backend that answers with two numbered titles; the local
    model is never reached. *)
Definition env_hosted : Env :=
  sample_env (fun _ _ _ _ _ => Ret (Some two_lines))
             (fun _ _ _ => Raise connection_error)
             None (fun _ => Ret tt).

(** A hosted backend that is unreachable, a local model that echoes
    the prompt and continues it. *)
Definition env_offline : Env :=
  sample_env (fun _ _ _ _ _ => Raise connection_error)
             (fun _ prompt _ => Ret (prompt ++ lit " Solar Power"))
             None (fun _ => Ret tt).

(** A hosted backend whose answer holds no title, a local model that
    fails once and then answers. *)
Definition env_empty_answer : Env :=
  sample_env (fun _ _ _ _ _ => Ret (Some (lit "1. 2.")))
             (fun n _ _ => match n with
                           | 1%nat => Raise connection_error
                           | _ => Ret two_lines
                           end)
             None (fun _ => Ret tt).

(** A hosted backend whose answer holds no title, a working local model. *)
Definition env_empty_then_local : Env :=
  sample_env (fun _ _ _ _ _ => Ret (Some (lit "1. 2.")))
             (fun _ _ _ => Ret two_lines)
             None (fun _ => Ret tt).

(** A default image is present and can be inserted. *)
Definition env_with_image : Env :=
  sample_env (fun _ _ _ _ _ => Raise connection_error)
             (fun _ prompt _ => Ret (prompt ++ lit " Solar Power"))
             (Some (Ret tt)) (fun _ => Ret tt).

(** A default image is present but cannot be read as an image. *)
Definition env_bad_image : Env :=
  sample_env (fun _ _ _ _ _ => Raise connection_error)
             (fun _ prompt _ => Ret (prompt ++ lit " Solar Power"))
             (Some (Raise (Exc OSError (lit "cannot identify image file"))))
             (fun _ => Ret tt).


(** A local model that is not available at all. *)
Definition env_no_model : Env :=
  sample_env (fun _ _ _ _ _ => Raise connection_error)
             (fun _ _ _ => Raise connection_error)
             None (fun _ => Ret tt).

(** A hosted backend whose answer carries no content ([None]). *)
Definition env_no_content : Env :=
  sample_env (fun _ _ _ _ _ => Ret None)
             (fun _ _ _ => Ret two_lines)
             None (fun _ => Ret tt).

Definition demo_key : str := lit "sk-demo".

(** The deck of an outcome, empty when building raised. *)
Definition deck_of (o : outcome Presentation) : Presentation :=
  match o with Ret prs => prs | Raise _ => [] end.

Definition demo_deck (env : Env) (cfg : StyleConfig) : Presentation :=
  deck_of (build_slides env demo_topic demo_titles demo_contents cfg).

(** A background colour cut short. *)
Definition style_short_bg : StyleConfig :=
  mkStyle (lit "#FFF") (lit "#000000") (lit "#000000") 30 16 None 0.

Definition ui_idle : UI := mkUI demo_topic [] default_style false.
Definition ui_no_topic : UI := mkUI [] [] default_style true.

(* ================================================================= *)
(** ** Facts about the string operations *)

Lemma split_nonempty sep s : split sep s <> [].
Proof.
  destruct s as [|c r]; simpl; [discriminate|].
  destruct (c =? sep)%N; [discriminate|].
  destruct (split sep r); discriminate.
Qed.

Lemma split_no_sep sep s : ~ In sep s -> split sep s = [s].
Proof.
  induction s as [|c r IH]; simpl; intros H; [reflexivity|].
  destruct (N.eqb_spec c sep) as [->|Hne]; [exfalso; auto|].
  rewrite IH by tauto. reflexivity.
Qed.

Lemma split_last_app sep a b :
  last (split sep (a ++ sep :: b)) [] = last (split sep b) [].
Proof.
  induction a as [|c r IH]; simpl.
  - rewrite N.eqb_refl. pose proof (split_nonempty sep b).
    destruct (split sep b); [congruence|reflexivity].
  - pose proof (split_nonempty sep (r ++ sep :: b)) as Hn.
    destruct (c =? sep)%N.
    + destruct (split sep (r ++ sep :: b)) eqn:E; [congruence|].
      rewrite <- IH. reflexivity.
    + destruct (split sep (r ++ sep :: b)) as [|h t] eqn:E; [congruence|].
      rewrite <- IH. destruct t; [|reflexivity].
      (* a single segment cannot contain the separator *)
      exfalso. clear IH Hn.
      assert (Hlen : forall s, (1 < length (split sep s))%nat \/ ~ In sep s).
      { clear. induction s as [|x s IHs]; simpl; [right; tauto|].
        destruct (N.eqb_spec x sep) as [->|Hx].
        - left. pose proof (split_nonempty sep s).
          destruct (split sep s); simpl; [congruence|lia].
        - destruct IHs as [IHs|IHs].
          + left. destruct (split sep s); simpl in *; lia.
          + right. intros [?|?]; [congruence|tauto]. }
      destruct (Hlen (r ++ sep :: b)) as [Hl|Hl].
      * rewrite E in Hl. simpl in Hl. lia.
      * apply Hl, in_or_app. right. left. reflexivity.
Qed.

Lemma split_last_no_sep sep s : ~ In sep (last (split sep s) []).
Proof.
  induction s as [|c r IH]; simpl; [tauto|].
  pose proof (split_nonempty sep r) as Hn.
  destruct (N.eqb_spec c sep) as [->|Hne].
  - destruct (split sep r); [congruence|exact IH].
  - destruct (split sep r) as [|h t]; [congruence|].
    destruct t; [|exact IH].
    simpl in *. intros [?|?]; [congruence|tauto].
Qed.

Lemma drop_while_all p a s :
  forallb p a = true -> drop_while p (a ++ s) = drop_while p s.
Proof.
  induction a as [|c r IH]; simpl; [reflexivity|].
  intros H. apply andb_prop in H as [Hc Hr]. rewrite Hc. auto.
Qed.

Lemma drop_while_clean p s : clean_left p s -> drop_while p s = s.
Proof. destruct s; simpl; [reflexivity|]. intros ->. reflexivity. Qed.

Lemma drop_while_decomp p s :
  exists a, s = a ++ drop_while p s /\ forallb p a = true.
Proof.
  induction s as [|c r [a [Ha Hp]]]; simpl.
  - exists []. split; reflexivity.
  - destruct (p c) eqn:Hc.
    + exists (c :: a). simpl. rewrite Hc, Hp. split; [congruence|reflexivity].
    + exists []. split; reflexivity.
Qed.

Lemma drop_while_is_clean p s : clean_left p (drop_while p s).
Proof.
  induction s as [|c r IH]; simpl; [exact I|].
  destruct (p c) eqn:Hc; [exact IH|exact Hc].
Qed.

Lemma forallb_rev {A} (p : A -> bool) l :
  forallb p l = true -> forallb p (rev l) = true.
Proof.
  rewrite !forallb_forall. intros H x Hx. apply H, in_rev, Hx.
Qed.

(** A strip is determined by any decomposition of the string into a
    strippable prefix, a body with clean edges and a strippable suffix. *)
Lemma strip_by_unique p a m b :
  forallb p a = true -> forallb p b = true ->
  clean_left p m -> clean_right p m ->
  strip_by p (a ++ m ++ b) = m.
Proof.
  intros Ha Hb Hl Hr. unfold strip_by, lstrip_by, rstrip_by.
  rewrite drop_while_all by exact Ha.
  destruct m as [|c m'].
  - simpl. destruct (drop_while_decomp p b) as [a' [E _]].
    assert (Hd : drop_while p b = []).
    { clear E a'. induction b as [|x b IH]; simpl in *; [reflexivity|].
      apply andb_prop in Hb as [Hx Hb]. rewrite Hx. auto. }
    rewrite Hd. reflexivity.
  - simpl in Hl. simpl. rewrite Hl.
    change (c :: m' ++ b) with ((c :: m') ++ b).
    rewrite rev_app_distr, drop_while_all by (apply forallb_rev, Hb).
    rewrite drop_while_clean by exact Hr. apply rev_involutive.
Qed.

Lemma strip_by_decomp p s :
  exists a b, s = a ++ strip_by p s ++ b
              /\ forallb p a = true /\ forallb p b = true.
Proof.
  unfold strip_by, lstrip_by, rstrip_by.
  destruct (drop_while_decomp p s) as [a [Ea Ha]].
  destruct (drop_while_decomp p (rev (drop_while p s))) as [b [Eb Hb]].
  exists a, (rev b). repeat split; [|exact Ha|apply forallb_rev, Hb].
  rewrite <- rev_app_distr, <- Eb, rev_involutive. exact Ea.
Qed.

Lemma strip_by_clean p s :
  clean_left p (strip_by p s) /\ clean_right p (strip_by p s).
Proof.
  unfold strip_by, lstrip_by, rstrip_by, clean_right.
  rewrite rev_involutive. split; [|apply drop_while_is_clean].
  set (t := drop_while p s).
  assert (Ht : clean_left p t) by apply drop_while_is_clean.
  destruct (drop_while_decomp p (rev t)) as [b [Eb _]].
  assert (E : t = rev (drop_while p (rev t)) ++ rev b).
  { rewrite <- rev_app_distr, <- Eb, rev_involutive. reflexivity. }
  destruct (rev (drop_while p (rev t))) as [|c r]; [exact I|].
  rewrite E in Ht. exact Ht.
Qed.

Lemma strip_by_idempotent p s : strip_by p (strip_by p s) = strip_by p s.
Proof.
  destruct (strip_by_clean p s) as [Hl Hr].
  pose proof (strip_by_unique p [] (strip_by p s) [] eq_refl eq_refl Hl Hr) as H.
  simpl in H. rewrite app_nil_r in H. exact H.
Qed.

Lemma strip_by_incl p s c : In c (strip_by p s) -> In c s.
Proof.
  destruct (strip_by_decomp p s) as [a [b [E _]]]. intros H.
  rewrite E. apply in_or_app. right. apply in_or_app. left. exact H.
Qed.

(** Stripping a larger character class absorbs a previous strip of a
    smaller one. *)
Lemma strip_by_absorb p q s :
  (forall c, q c = true -> p c = true) ->
  strip_by p (strip_by q s) = strip_by p s.
Proof.
  intros Hqp.
  destruct (strip_by_decomp q s) as [a [b [E [Ha Hb]]]].
  destruct (strip_by_decomp p (strip_by q s)) as [a' [b' [E' [Ha' Hb']]]].
  destruct (strip_by_clean p (strip_by q s)) as [Hl Hr].
  assert (Hsub : forall l, forallb q l = true -> forallb p l = true).
  { intros l. rewrite !forallb_forall. auto. }
  remember (strip_by p (strip_by q s)) as m eqn:Em.
  assert (Es : s = (a ++ a') ++ m ++ (b' ++ b)).
  { rewrite E at 1. rewrite E' at 1.
    repeat rewrite <- app_assoc. reflexivity. }
  rewrite Es at 1. symmetry.
  apply strip_by_unique; auto.
  - rewrite forallb_app, (Hsub _ Ha), Ha'. reflexivity.
  - rewrite forallb_app, (Hsub _ Hb), Hb'. reflexivity.
Qed.

(* ================================================================= *)
(** ** Title generation *)


Lemma filter_nil_iff {A} (f : A -> bool) (l : list A) :
  filter f l = [] <-> forall x, In x l -> f x = false.
Proof.
  induction l as [|a l IH]; simpl.
  - split; [intros _ x []|reflexivity].
  - destruct (f a) eqn:Fa; split.
    + discriminate.
    + intros H. specialize (H a (or_introl eq_refl)). congruence.
    + intros H x [<-|Hx]; [exact Fa|apply IH; assumption].
    + intros H. apply IH. intros x Hx. apply H. right. exact Hx.
Qed.


Lemma truthy_nonempty s : truthy s = true <-> s <> [].
Proof. destruct s; simpl; split; congruence. Qed.




Section Generation.

Variable env : Env.

Lemma fallback_titles_inv topic w r w' :
  fallback_titles env topic w = (r, w') ->
  disk w' = disk w
  /\ match r with
     | Ret titles => exists raw, titles = parse_titles (split nl raw)
     | Raise _ => True
     end.
Proof.
  unfold fallback_titles, bind, call_generator, ret.
  destruct (generator env _ _ _) as [raw|e]; intros H; inversion H; subst;
    simpl; split; eauto.
Qed.

Lemma generate_slide_titles_inv topic key w r w' :
  generate_slide_titles env topic key w = (r, w') ->
  disk w' = disk w
  /\ match r with
     | Ret titles => exists raw, titles = parse_titles (split nl raw)
     | Raise _ => True
     end.
Proof.
  unfold generate_slide_titles.
  destruct (opt_truthy key); [|apply fallback_titles_inv].
  unfold try_except, bind, call_openai, lift, show.
  destruct (openai_chat env _ _ _ _ _) as [[content|]|e]; simpl.
  - destruct (parse_titles (split nl content)) as [|t ts] eqn:E.
    + destruct (fallback_titles env topic _) as [[titles|e] w1] eqn:F;
        apply fallback_titles_inv in F as [Fd Fr]; simpl in Fd.
      * intros H; inversion H; subst. split; assumption.
      * intros H. apply fallback_titles_inv in H as [Hd Hr]; simpl in Hd.
        split; [congruence|exact Hr].
    + intros H; inversion H; subst. simpl. split; eauto.
  - intros H. apply fallback_titles_inv in H. exact H.
  - intros H. apply fallback_titles_inv in H. exact H.
Qed.


End Generation.

(** C2. Normalizing a title line twice is the same as normalizing it
    once.  When the line, with its leading and trailing spaces
    removed, neither starts nor ends with a character of the strip
    set, normalization returns exactly that space-trimmed line.  The
    strip acts on both edges: the line is its normalization between a
    removed prefix and a removed suffix of strip-set characters, the
    normalization itself neither starts nor ends with a strip-set
    character, and whenever the line is a body with clean edges
    between strip-set characters on its left and on its right, the
    normalization is that body. *)
Theorem title_normalization_clean_edges (line : str) :
  strip_chars strip_set (strip_chars strip_set line)
  = strip_chars strip_set line
  /\ (clean_left in_strip_set (strip_chars [space] line) ->
      clean_right in_strip_set (strip_chars [space] line) ->
      strip_chars strip_set line = strip_chars [space] line)
  /\ (exists a b,
         line = a ++ strip_chars strip_set line ++ b
         /\ forallb in_strip_set a = true /\ forallb in_strip_set b = true)
  /\ clean_left in_strip_set (strip_chars strip_set line)
  /\ clean_right in_strip_set (strip_chars strip_set line)
  /\ (forall before body after,
         line = before ++ body ++ after ->
         forallb in_strip_set before = true ->
         forallb in_strip_set after = true ->
         clean_left in_strip_set body -> clean_right in_strip_set body ->
         strip_chars strip_set line = body).
Proof.
  unfold strip_chars.
  assert (Hedges := strip_by_clean (fun c => mem c strip_set) line).
  assert (Hbody : forall before body after,
             line = before ++ body ++ after ->
             forallb in_strip_set before = true ->
             forallb in_strip_set after = true ->
             clean_left in_strip_set body -> clean_right in_strip_set body ->
             strip_by (fun c => mem c strip_set) line = body).
  { intros before body after -> Hb Ha Hl Hr.
    apply strip_by_unique; assumption. }
  cut (strip_by (fun c => mem c strip_set)
         (strip_by (fun c => mem c strip_set) line)
       = strip_by (fun c => mem c strip_set) line
       /\ (clean_left in_strip_set (strip_by (fun c => mem c [space]) line) ->
           clean_right in_strip_set (strip_by (fun c => mem c [space]) line) ->
           strip_by (fun c => mem c strip_set) line
           = strip_by (fun c => mem c [space]) line)
       /\ (exists a b,
              line = a ++ strip_by (fun c => mem c strip_set) line ++ b
              /\ forallb in_strip_set a = true
              /\ forallb in_strip_set b = true)).
  { intros (H1 & H2 & H3). destruct Hedges as [Hl Hr].
    repeat split; assumption. }
  clear Hedges Hbody.
  split; [apply strip_by_idempotent|]. split.
  - intros Hl Hr.
    rewrite <- (strip_by_absorb (fun c => mem c strip_set)
                                (fun c => mem c [space]) line).
    + pose proof (strip_by_unique (fun c => mem c strip_set) []
                    (strip_by (fun c => mem c [space]) line) []
                    eq_refl eq_refl Hl Hr) as H.
      simpl in H. rewrite app_nil_r in H. exact H.
    + intros c Hc. simpl in Hc. rewrite orb_false_r in Hc.
      apply N.eqb_eq in Hc. subst c. reflexivity.
  - apply (strip_by_decomp (fun c => mem c strip_set) line).
Qed.

(* ================================================================= *)
(** ** Content generation *)

Lemma index_last_split sep s :
  index_last (split sep s) = Ret (last (split sep s) []).
Proof.
  unfold index_last. pose proof (split_nonempty sep s) as Hn.
  destruct (split sep s) as [|h t] using rev_ind; [congruence|].
  rewrite rev_app_distr, last_last. reflexivity.
Qed.

Section Content.

Variable env : Env.

Lemma generate_slide_content_returns title key w :
  exists s w',
    generate_slide_content env title key w = (Ret s, w')
    /\ disk w' = disk w
    /\ ((exists generated, s = strip generated /\ shown w' = shown w)
        \/ (s = sentinel /\ exists msg, shown w' = StError msg :: shown w)).
Proof.
  unfold generate_slide_content, try_except.
  destruct (opt_truthy key).
  - unfold bind, call_openai, lift, ret, show.
    destruct (openai_chat env _ _ _ _ _) as [[content|]|e]; simpl;
      do 2 eexists; (split; [reflexivity|]); simpl; split; eauto.
  - unfold bind, call_generator, lift, ret, show.
    destruct (generator env _ _ _) as [raw|e]; simpl.
    + rewrite index_last_split.
      do 2 eexists; (split; [reflexivity|]); simpl; split; eauto.
    + do 2 eexists; (split; [reflexivity|]); simpl; split; eauto.
Qed.


(** C10. Without a credential, the paragraph returned for the local
    model's output is the trimmed segment after its last colon; it
    contains no colon, and whatever precedes a colon of the output is
    discarded. *)
Theorem local_content_after_last_colon title key raw w :
  opt_truthy key = false ->
  generator env (calls w) (local_prompt title) 120 = Ret raw ->
  exists w',
    generate_slide_content env title key w
    = (Ret (strip (last (split colon raw) [])), w')
    /\ ~ In colon (strip (last (split colon raw) []))
    /\ (forall a b, raw = a ++ colon :: b -> ~ In colon b ->
                    strip (last (split colon raw) []) = strip b).
Proof.
  intros Hk Hg. unfold generate_slide_content, try_except.
  rewrite Hk. unfold bind, call_generator, lift, ret.
  unfold local_prompt in Hg. rewrite Hg. simpl.
  rewrite index_last_split. eexists. split; [reflexivity|]. split.
  - intros Hin. apply strip_by_incl in Hin.
    exact (split_last_no_sep colon raw Hin).
  - intros a b -> Hb.
    rewrite split_last_app, (split_no_sep colon b Hb). reflexivity.
Qed.

End Content.

(* ================================================================= *)
(** ** Colour parsing *)

Lemma hex_digit_range c d : hex_digit c = Some d -> (0 <= d <= 15)%Z.
Proof.
  unfold hex_digit.
  destruct ((48 <=? c) && (c <=? 57))%N eqn:E1;
    [|destruct ((97 <=? c) && (c <=? 102))%N eqn:E2;
      [|destruct ((65 <=? c) && (c <=? 70))%N eqn:E3]];
    intros H; inversion H; subst; clear H;
    match goal with
    | E : (_ && _)%bool = true |- _ =>
        apply andb_prop in E as [Ea Eb];
        apply N.leb_le in Ea; apply N.leb_le in Eb; lia
    end.
Qed.

Section Colours.

Variable env : Env.

Lemma int16_two_digits a b :
  is_hex a = true -> is_hex b = true ->
  exists v, int16 env [a; b] = Ret v /\ (0 <= v <= 255)%Z.
Proof.
  unfold is_hex, int16, hex_value.
  destruct (hex_digit a) as [da|] eqn:Ha; [|discriminate].
  destruct (hex_digit b) as [db|] eqn:Hb; [|discriminate].
  intros _ _. apply hex_digit_range in Ha, Hb.
  eexists. split; [reflexivity|lia].
Qed.

Lemma mkRGBColor_in_range r g b :
  (0 <= r <= 255)%Z -> (0 <= g <= 255)%Z -> (0 <= b <= 255)%Z ->
  mkRGBColor r g b = Ret (RGB r g b).
Proof.
  intros Hr Hg Hb. unfold mkRGBColor.
  replace ((0 <=? r) && (r <=? 255) && (0 <=? g) && (g <=? 255)
           && (0 <=? b) && (b <=? 255))%Z with true; [reflexivity|].
  symmetry. repeat (apply andb_true_intro; split); apply Z.leb_le; lia.
Qed.

Lemma well_formed_color_parses c :
  well_formed_color c = true ->
  exists rgb,
    hex_rgb env c = Ret rgb
    /\ (0 <= red rgb <= 255)%Z /\ (0 <= green rgb <= 255)%Z
    /\ (0 <= blue rgb <= 255)%Z.
Proof.
  destruct c as [|h [|d1 [|d2 [|d3 [|d4 [|d5 [|d6 [|x r]]]]]]]];
    try discriminate.
  unfold well_formed_color. simpl. intros H.
  repeat match goal with
         | H : (_ && _)%bool = true |- _ => apply andb_prop in H as [? H]
         end.
  destruct (int16_two_digits d1 d2) as [r [Er Hr]]; try assumption.
  destruct (int16_two_digits d3 d4) as [g [Eg Hg]]; try assumption.
  destruct (int16_two_digits d5 d6) as [b [Eb Hb]]; try assumption.
  exists (RGB r g b). unfold hex_rgb, slice. simpl firstn.
  rewrite Er, Eg, Eb. simpl. rewrite mkRGBColor_in_range by assumption.
  simpl. auto.
Qed.

End Colours.

(* ================================================================= *)
(** ** Deck assembly *)

Lemma nth_error_combine {A B} (l : list A) (l' : list B) i x y :
  nth_error l i = Some x -> nth_error l' i = Some y ->
  nth_error (combine l l') i = Some (x, y).
Proof.
  revert l l'. induction i as [|i IH]; intros [|a l] [|b l']; simpl;
    try discriminate.
  - congruence.
  - apply IH.
Qed.

Lemma Forall2_nth_error_left {A B} (R : A -> B -> Prop) l l' i x :
  Forall2 R l l' -> nth_error l i = Some x ->
  exists y, nth_error l' i = Some y /\ R x y.
Proof.
  intros H. revert i. induction H as [|a b l l' Hab _ IH]; intros [|i]; simpl;
    try discriminate.
  - intros E. inversion E; subst. eauto.
  - apply IH.
Qed.

Lemma combine_firstn_min {A B} (l : list A) (l' : list B) :
  combine (firstn (Nat.min (length l) (length l')) l)
          (firstn (Nat.min (length l) (length l')) l')
  = combine l l'.
Proof.
  rewrite <- combine_firstn, <- length_combine. apply firstn_all.
Qed.

Lemma mapM_total {A B} (f : A -> outcome B) (l : list A) :
  (forall x, exists y, f x = Ret y) -> exists ys, mapM f l = Ret ys.
Proof.
  intros Hf. induction l as [|x l [ys IH]]; simpl; [eauto|].
  destruct (Hf x) as [y ->]. rewrite IH. simpl. eauto.
Qed.

Lemma str_eqb_refl s : str_eqb s s = true.
Proof. unfold str_eqb. destruct (list_eq_dec N.eq_dec s s); congruence. Qed.

Section Assembly.

Variable env : Env.

Lemma style_runs_inv size color sh sh' :
  style_runs env size color sh = Ret sh' ->
  idx sh' = idx sh /\ text sh' = text sh
  /\ line_rgb sh' = line_rgb sh /\ line_width sh' = line_width sh.
Proof.
  unfold style_runs. destruct (mapM _ _); simpl; intros H; inversion H.
  simpl. auto.
Qed.

Lemma set_text_inv s sh sh' :
  set_text env s sh = Ret sh' ->
  xml_compatible s = true
  /\ sh' = mkShape (idx sh) (escape_ctrl_chars s)
             (map (map (fun t => mkRun t None None))
                  (text_runs env (escape_ctrl_chars s)))
             (line_rgb sh) (line_width sh).
Proof.
  unfold set_text. destruct (xml_compatible s); intros H; inversion H; auto.
Qed.

Lemma fill_placeholder_inv cfg content sh sh' :
  fill_placeholder env cfg content sh = Ret sh' ->
  idx sh' = idx sh
  /\ ((idx sh =? 1)%Z = true -> text sh' = escape_ctrl_chars content)
  /\ ((idx sh =? 1)%Z = false -> sh' = sh)
  /\ (border_drawn cfg = false -> has_border sh = false ->
      has_border sh' = false).
Proof.
  unfold fill_placeholder. fold (border_drawn cfg).
  destruct (idx sh =? 1)%Z eqn:E.
  - destruct (set_text env content sh) as [sh0|e] eqn:E0; simpl;
      [|discriminate].
    apply set_text_inv in E0 as [_ ->].
    destruct (style_runs env _ _ _) as [sh1|e] eqn:Es; simpl; [|discriminate].
    apply style_runs_inv in Es as (Hi & Ht & Hc & Hw). simpl in *.
    destruct (border_drawn cfg).
    + destruct (hex_rgb env _); simpl; [|discriminate].
      destruct (line_width_ok _); intros H; inversion H; subst; simpl.
      repeat split; auto; discriminate.
    + intros H; inversion H; subst.
      repeat split; auto; try discriminate.
      intros _ Hb. unfold has_border in *. rewrite Hc, Hw. exact Hb.
  - intros H; inversion H; subst. repeat split; auto. discriminate.
Qed.

Lemma add_content_slide_inv cfg prs tc prs' :
  add_content_slide env cfg prs tc = Ret prs' ->
  exists slide, prs' = prs ++ [slide] /\ slide_for cfg tc slide.
Proof.
  destruct tc as [title content].
  unfold add_content_slide, new_slide, on_title, set_background. simpl.
  destruct (hex_rgb env (bg_color cfg)) as [fill|e]; simpl; [|discriminate].
  destruct (set_text env title (new_placeholder 0)) as [tsh0|e] eqn:E0;
    simpl; [|discriminate].
  apply set_text_inv in E0 as [_ ->]. simpl.
  destruct (style_runs env (title_size cfg) (title_color cfg) _)
    as [tsh|e] eqn:Et; simpl; [|discriminate].
  apply style_runs_inv in Et as (Ti & Tt & Tc & Tw). simpl in *.
  destruct (fill_placeholder env cfg content tsh) as [tsh'|e] eqn:Ft;
    simpl; [|discriminate].
  apply fill_placeholder_inv in Ft as (_ & _ & Fs & _).
  rewrite Ti in Fs. specialize (Fs eq_refl). subst tsh'.
  destruct (fill_placeholder env cfg content (new_placeholder 1))
    as [bsh|e] eqn:Fb; simpl; [|discriminate].
  apply fill_placeholder_inv in Fb as (Bi & Bt & _ & Bb). simpl in *.
  specialize (Bt eq_refl).
  assert (Hok : forall pics,
             slide_for cfg (title, content)
               (mkSlide 1 (Some fill) [tsh; bsh] pics)).
  { intros pics. unfold slide_for, title_text, body_text, shapes_title,
      body_placeholder, no_border. simpl. rewrite Ti, Bi. simpl.
    rewrite Tt, Bt. repeat split.
    intros Hd. repeat constructor.
    - unfold has_border. rewrite Tc, Tw. reflexivity.
    - apply Bb; auto. }
  destruct (default_jpg env) as [[[]|e]|]; simpl; try discriminate;
    intros H; inversion H; subst; eexists; split; try reflexivity;
    apply Hok.
Qed.

Lemma foldM_add_content_slide_inv cfg l prs prs' :
  foldM (add_content_slide env cfg) l prs = Ret prs' ->
  exists slides, prs' = prs ++ slides /\ Forall2 (slide_for cfg) l slides.
Proof.
  revert prs. induction l as [|tc l IH]; simpl; intros prs H.
  - inversion H; subst. exists []. rewrite app_nil_r. auto.
  - destruct (add_content_slide env cfg prs tc) as [prs1|e] eqn:E;
      simpl in H; [|discriminate].
    apply add_content_slide_inv in E as [slide [-> Hs]].
    apply IH in H as [slides [-> Hf]].
    exists (slide :: slides). rewrite <- app_assoc. simpl. auto.
Qed.

Lemma build_slides_inv topic titles contents cfg prs :
  build_slides env topic titles contents cfg = Ret prs ->
  exists s0 slides,
    prs = s0 :: slides
    /\ title_text s0 = Some (escape_ctrl_chars topic) /\ no_border s0
    /\ Forall2 (slide_for cfg) (combine titles contents) slides.
Proof.
  unfold build_slides, new_slide, on_title, set_background. simpl.
  destruct (set_text env topic (new_placeholder 0)) as [tsh0|e] eqn:E0;
    simpl; [|discriminate].
  apply set_text_inv in E0 as [_ ->]. simpl.
  destruct (hex_rgb env (bg_color cfg)) as [fill|e]; simpl; [|discriminate].
  destruct (style_runs env (title_size cfg) (title_color cfg) _)
    as [tsh|e] eqn:Et; simpl; [|discriminate].
  apply style_runs_inv in Et as (Ti & Tt & Tc & Tw). simpl in *.
  intros H. apply foldM_add_content_slide_inv in H as [slides [-> Hf]].
  do 2 eexists. split; [reflexivity|]. split; [|split; [|exact Hf]].
  - unfold title_text, shapes_title. simpl. rewrite Ti. simpl.
    rewrite Tt. reflexivity.
  - unfold no_border. simpl. repeat constructor.
    unfold has_border. rewrite Tc, Tw. reflexivity.
Qed.

Lemma create_ppt_inv topic titles contents cfg w path w' :
  create_ppt env topic titles contents cfg w = (Ret path, w') ->
  exists prs,
    build_slides env topic titles contents cfg = Ret prs
    /\ path = output_path env topic
    /\ w' = mkWorld (calls w) (shown w) ((path, prs) :: disk w)
    /\ read_file w' path = Some prs.
Proof.
  unfold create_ppt, bind, lift, makedirs, save, ret.
  destruct (build_slides env topic titles contents cfg) as [prs|e];
    [|discriminate].
  destruct (os_makedirs env _) as [[]|e]; [|discriminate].
  destruct (save_file env _) as [[]|e]; [|discriminate].
  intros H; inversion H; subst. exists prs. repeat split.
  unfold read_file. cbn [disk find fst]. rewrite str_eqb_refl. reflexivity.
Qed.

(** What a saved deck looks like, whatever the lengths of the lists. *)
Lemma create_ppt_deck topic titles contents cfg w path w' :
  create_ppt env topic titles contents cfg w = (Ret path, w') ->
  exists prs,
    read_file w' path = Some prs
    /\ length prs = S (Nat.min (length titles) (length contents))
    /\ (exists s0, nth_error prs 0 = Some s0
                   /\ title_text s0 = Some (escape_ctrl_chars topic))
    /\ (forall i t c,
           nth_error titles i = Some t -> nth_error contents i = Some c ->
           exists s, nth_error prs (S i) = Some s
                     /\ title_text s = Some (escape_ctrl_chars t)
                     /\ body_text s = Some (escape_ctrl_chars c))
    /\ (border_drawn cfg = false -> Forall no_border prs).
Proof.
  intros H. apply create_ppt_inv in H as [prs [Hb [-> [-> Hr]]]].
  apply build_slides_inv in Hb as [s0 [slides [-> [Ht [Hn Hf]]]]].
  exists (s0 :: slides). split; [exact Hr|]. repeat split.
  - simpl. rewrite <- (Forall2_length Hf), length_combine. reflexivity.
  - exists s0. auto.
  - intros i t c Hi Hc. simpl.
    destruct (Forall2_nth_error_left _ _ _ i (t, c) Hf
                (nth_error_combine _ _ _ _ _ Hi Hc)) as [s [Hs [H1 [H2 _]]]].
    exists s. auto.
  - intros Hd. constructor; [exact Hn|].
    clear -Hf Hd. induction Hf as [|tc s l l' [_ [_ Hs]] _ IH];
      constructor; auto.
Qed.

End Assembly.


Lemma mapM_outcome {A B} (P : exn -> Prop) (f : A -> outcome B) l :
  (forall x, match f x with Ret _ => True | Raise e => P e end) ->
  match mapM f l with Ret _ => True | Raise e => P e end.
Proof.
  intros Hf. induction l as [|x l IH]; simpl; [exact I|].
  specialize (Hf x). destruct (f x) as [y|e]; simpl; [|exact Hf].
  destruct (mapM f l); simpl; auto.
Qed.

Lemma in_combine_texts (titles contents : list str) t c :
  In (t, c) (combine titles contents) ->
  xml_compatible t && xml_compatible c = false ->
  forallb xml_compatible titles && forallb xml_compatible contents = false.
Proof.
  intros Hin Hx.
  destruct (forallb xml_compatible titles) eqn:Ht;
    destruct (forallb xml_compatible contents) eqn:Hc; try reflexivity.
  rewrite forallb_forall in Ht, Hc.
  rewrite (Ht t (in_combine_l _ _ _ _ Hin)) in Hx.
  rewrite (Hc c (in_combine_r _ _ _ _ Hin)) in Hx. discriminate.
Qed.

Section AssemblyOutcome.

Variable env : Env.

Lemma set_text_outcome s sh :
  match set_text env s sh with
  | Ret _ => xml_compatible s = true
  | Raise e => e = xml_error /\ xml_compatible s = false
  end.
Proof. unfold set_text. destruct (xml_compatible s); auto. Qed.

Lemma style_runs_outcome size color sh :
  (exists rgb, hex_rgb env color = Ret rgb) ->
  match style_runs env size color sh with
  | Ret _ => True
  | Raise e => e = font_size_error /\ font_size_ok size = false
  end.
Proof.
  intros [rgb Hc]. unfold style_runs.
  pose proof (mapM_outcome
                (fun e => e = font_size_error /\ font_size_ok size = false)
                (mapM (style_run env size color)) (paragraphs sh)) as H.
  destruct (mapM (mapM (style_run env size color)) (paragraphs sh));
    simpl; [exact I|].
  apply H. intros p. apply mapM_outcome. intros r.
  unfold style_run, set_font_size.
  destruct (font_size_ok size); simpl; [|auto].
  rewrite Hc. simpl. exact I.
Qed.

Lemma well_formed_style_colors cfg :
  well_formed_style cfg = true ->
  (exists rgb, hex_rgb env (bg_color cfg) = Ret rgb)
  /\ (exists rgb, hex_rgb env (title_color cfg) = Ret rgb)
  /\ (exists rgb, hex_rgb env (content_color cfg) = Ret rgb)
  /\ (border_drawn cfg = true ->
      exists rgb, hex_rgb env (opt_str (border_color cfg)) = Ret rgb).
Proof.
  unfold well_formed_style. intros H.
  apply andb_prop in H as [H Hb]. apply andb_prop in H as [H Hc].
  apply andb_prop in H as [Hg Ht].
  repeat split.
  - destruct (well_formed_color_parses env _ Hg) as [rgb [E _]]; eauto.
  - destruct (well_formed_color_parses env _ Ht) as [rgb [E _]]; eauto.
  - destruct (well_formed_color_parses env _ Hc) as [rgb [E _]]; eauto.
  - intros Hd. rewrite Hd in Hb.
    destruct (well_formed_color_parses env _ Hb) as [rgb [E _]]; eauto.
Qed.

Lemma fill_placeholder_outcome cfg content sh :
  well_formed_style cfg = true ->
  match fill_placeholder env cfg content sh with
  | Ret _ => True
  | Raise e =>
      (e = xml_error /\ xml_compatible content = false)
      \/ (e = font_size_error /\ font_size_ok (content_size cfg) = false)
      \/ (e = line_width_error
          /\ border_drawn cfg = true
          /\ line_width_ok (Pt (border_width cfg)) = false)
  end.
Proof.
  intros Hwf.
  destruct (well_formed_style_colors cfg Hwf) as (_ & _ & Hc & Hb).
  unfold fill_placeholder. fold (border_drawn cfg).
  destruct (idx sh =? 1)%Z; [|exact I].
  pose proof (set_text_outcome content sh) as Hs.
  destruct (set_text env content sh) as [sh0|e]; simpl; [|auto].
  pose proof (style_runs_outcome (content_size cfg) (content_color cfg)
                sh0 Hc) as Hr.
  destruct (style_runs env _ _ sh0) as [sh1|e]; simpl; [|auto].
  destruct (border_drawn cfg) eqn:Hd; [|exact I].
  destruct (Hb eq_refl) as [rgb ->]. simpl.
  destruct (line_width_ok (Pt (border_width cfg))); [exact I|].
  right. right. auto.
Qed.

Lemma add_content_slide_outcome cfg prs title content :
  well_formed_style cfg = true ->
  match add_content_slide env cfg prs (title, content) with
  | Ret _ => True
  | Raise e =>
      (e = xml_error /\ xml_compatible title && xml_compatible content = false)
      \/ (e = font_size_error
          /\ font_size_ok (title_size cfg) && font_size_ok (content_size cfg)
             = false)
      \/ (e = line_width_error
          /\ border_drawn cfg = true
          /\ line_width_ok (Pt (border_width cfg)) = false)
      \/ default_jpg env = Some (Raise e)
  end.
Proof.
  intros Hwf.
  destruct (well_formed_style_colors cfg Hwf) as ([fill Hg] & Ht & _ & _).
  unfold add_content_slide, new_slide, on_title, set_background. simpl.
  rewrite Hg. simpl.
  pose proof (set_text_outcome title (new_placeholder 0)) as Hs.
  destruct (set_text env title (new_placeholder 0)) as [tsh0|e] eqn:E0;
    simpl; [|destruct Hs as [-> Hs]; left; split; [reflexivity|];
             rewrite Hs; reflexivity].
  apply set_text_inv in E0 as [_ ->]. simpl.
  match goal with
  | |- context [style_runs env ?a ?b ?sh0] =>
      pose proof (style_runs_outcome a b sh0 Ht) as Hr;
      destruct (style_runs env a b sh0) as [tsh|e] eqn:Et; simpl
  end;
    [|destruct Hr as [-> Hr]; right; left; split; [reflexivity|];
      rewrite Hr; reflexivity].
  apply style_runs_inv in Et as (Ti & _). simpl in Ti.
  pose proof (fill_placeholder_outcome cfg content tsh Hwf) as Hf1.
  pose proof (fill_placeholder_outcome cfg content (new_placeholder 1) Hwf)
    as Hf2.
  assert (Hlift : forall e,
    (e = xml_error /\ xml_compatible content = false)
    \/ (e = font_size_error /\ font_size_ok (content_size cfg) = false)
    \/ (e = line_width_error /\ border_drawn cfg = true
        /\ line_width_ok (Pt (border_width cfg)) = false) ->
    (e = xml_error /\ xml_compatible title && xml_compatible content = false)
    \/ (e = font_size_error
        /\ font_size_ok (title_size cfg) && font_size_ok (content_size cfg)
           = false)
    \/ (e = line_width_error /\ border_drawn cfg = true
        /\ line_width_ok (Pt (border_width cfg)) = false)
    \/ default_jpg env = Some (Raise e)).
  { intros e [[-> Hx]|[[-> Hx]|Hx]].
    - left. split; [reflexivity|]. rewrite Hx. apply andb_false_r.
    - right. left. split; [reflexivity|]. rewrite Hx. apply andb_false_r.
    - right. right. left. exact Hx. }
  destruct (fill_placeholder env cfg content tsh) as [tsh'|e]; simpl;
    [|apply Hlift, Hf1].
  destruct (fill_placeholder env cfg content (new_placeholder 1))
    as [bsh|e]; simpl; [|apply Hlift, Hf2].
  destruct (default_jpg env) as [[[]|e]|]; simpl; auto.
Qed.

Lemma foldM_add_content_slide_outcome topic titles contents cfg l prs :
  well_formed_style cfg = true ->
  (forall tc, In tc l -> In tc (combine titles contents)) ->
  match foldM (add_content_slide env cfg) l prs with
  | Ret _ => True
  | Raise e =>
      library_error topic titles contents cfg e
      \/ default_jpg env = Some (Raise e)
  end.
Proof.
  intros Hwf. revert prs.
  induction l as [|[t c] l IH]; intros prs Hin; cbn [foldM]; [exact I|].
  pose proof (add_content_slide_outcome cfg prs t c Hwf) as Ha.
  destruct (add_content_slide env cfg prs (t, c)); cbn [obind].
  - apply IH. intros tc Htc. apply Hin. right. exact Htc.
  - destruct Ha as [[-> Hx]|[Hx|[Hx|Hx]]].
    + left. left. split; [reflexivity|]. unfold texts_ok.
      rewrite <- andb_assoc.
      rewrite (in_combine_texts titles contents t c
                 (Hin _ (or_introl eq_refl)) Hx).
      apply andb_false_r.
    + left. right. left. exact Hx.
    + left. right. right. exact Hx.
    + right. exact Hx.
Qed.

Lemma build_slides_outcome topic titles contents cfg :
  well_formed_style cfg = true ->
  match build_slides env topic titles contents cfg with
  | Ret _ => True
  | Raise e =>
      library_error topic titles contents cfg e
      \/ default_jpg env = Some (Raise e)
  end.
Proof.
  intros Hwf.
  destruct (well_formed_style_colors cfg Hwf) as ([fill Hg] & Ht & _ & _).
  unfold build_slides, new_slide, on_title, set_background. simpl.
  pose proof (set_text_outcome topic (new_placeholder 0)) as Hs.
  destruct (set_text env topic (new_placeholder 0)) as [tsh0|e] eqn:E0;
    simpl.
  2:{ destruct Hs as [-> Hs]. left. left. split; [reflexivity|].
      unfold texts_ok. rewrite Hs. reflexivity. }
  apply set_text_inv in E0 as [_ ->]. simpl.
  rewrite Hg. simpl.
  match goal with
  | |- context [style_runs env ?a ?b ?sh0] =>
      pose proof (style_runs_outcome a b sh0 Ht) as Hr;
      destruct (style_runs env a b sh0) as [tsh|e] eqn:Et; simpl
  end.
  2:{ destruct Hr as [-> Hr]. left. right. left. split; [reflexivity|].
      rewrite Hr. reflexivity. }
  apply foldM_add_content_slide_outcome; auto.
Qed.

Lemma create_ppt_outcome topic titles contents cfg w :
  well_formed_style cfg = true ->
  match fst (create_ppt env topic titles contents cfg w) with
  | Ret path => path = output_path env topic
  | Raise e =>
      library_error topic titles contents cfg e \/ raised_by_io env topic e
  end.
Proof.
  intros Hwf. unfold create_ppt, bind, lift, makedirs, save, ret, raised_by_io.
  pose proof (build_slides_outcome topic titles contents cfg Hwf) as Hb.
  destruct (build_slides env topic titles contents cfg) as [prs|e];
    simpl; [|tauto].
  destruct (os_makedirs env _) as [[]|e] eqn:Em; simpl; auto.
  destruct (save_file env _) as [[]|e] eqn:Es; simpl; auto.
Qed.

Lemma no_library_error topic titles contents cfg e :
  style_in_range cfg = true -> texts_ok topic titles contents = true ->
  ~ library_error topic titles contents cfg e.
Proof.
  unfold style_in_range. intros Hr Ht.
  apply andb_prop in Hr as [Hs Hw].
  intros [[_ H]|[[_ H]|[_ [Hd H]]]].
  - congruence.
  - congruence.
  - rewrite Hd in Hw. congruence.
Qed.

Lemma create_ppt_returns topic titles contents cfg w :
  well_formed_style cfg = true -> style_in_range cfg = true ->
  texts_ok topic titles contents = true -> io_ok env topic = true ->
  exists path w', create_ppt env topic titles contents cfg w = (Ret path, w').
Proof.
  intros Hwf Hr Ht Hio.
  apply andb_prop in Hio as [Hio Hs]. apply andb_prop in Hio as [Hj Hm].
  pose proof (create_ppt_outcome topic titles contents cfg w Hwf) as H.
  destruct (create_ppt env topic titles contents cfg w) as [[path|e] w'];
    simpl in H; [eauto|].
  exfalso. destruct H as [H|[H|[H|H]]].
  - exact (no_library_error _ _ _ _ _ Hr Ht H).
  - rewrite H in Hj. discriminate.
  - rewrite H in Hm. discriminate.
  - rewrite H in Hs. discriminate.
Qed.


(** C5. When [border_width] is not positive, no placeholder of any
    slide of the deck has an outline, whatever [border_color] is. *)
Theorem no_border_without_width topic titles contents cfg :
  (border_width cfg <= 0)%Z ->
  (forall prs,
      build_slides env topic titles contents cfg = Ret prs ->
      Forall no_border prs)
  /\ (forall w path w',
         create_ppt env topic titles contents cfg w = (Ret path, w') ->
         exists prs, read_file w' path = Some prs /\ Forall no_border prs).
Proof.
  intros Hw.
  assert (Hd : border_drawn cfg = false).
  { unfold border_drawn. replace (border_width cfg >? 0)%Z with false.
    - apply andb_false_r.
    - symmetry. rewrite Z.gtb_ltb. apply Z.ltb_ge. exact Hw. }
  split.
  - intros prs H.
    apply build_slides_inv in H as [s0 [slides [-> [_ [Hn Hf]]]]].
    constructor; [exact Hn|].
    clear -Hf Hd. induction Hf as [|tc s l l' [_ [_ Hs]] _ IH];
      constructor; auto.
  - intros w path w' H.
    apply create_ppt_deck in H as [prs (Hr & _ & _ & _ & Hb)]. eauto.
Qed.

(** C9. [create_ppt] pairs titles and contents positionally and
    ignores what the longer list has in excess: it behaves exactly as
    on the two lists cut to the shorter length, the stored deck has
    one slide more than that length, slide [i+1] holding [titles[i]]
    and [contents[i]] as the document library stores them, and a
    difference in length makes it raise nothing: with well-formed
    colours, sizes in range, XML-compatible texts and a cooperating
    file system it returns. *)
Theorem create_ppt_zip_truncates topic titles contents cfg w :
  let n := Nat.min (length titles) (length contents) in
  create_ppt env topic titles contents cfg w
  = create_ppt env topic (firstn n titles) (firstn n contents) cfg w
  /\ (forall path w',
         create_ppt env topic titles contents cfg w = (Ret path, w') ->
         exists prs,
           read_file w' path = Some prs
           /\ length prs = S n
           /\ (forall i t c,
                  nth_error titles i = Some t ->
                  nth_error contents i = Some c ->
                  exists s, nth_error prs (S i) = Some s
                            /\ title_text s = Some (escape_ctrl_chars t)
                            /\ body_text s = Some (escape_ctrl_chars c)))
  /\ (well_formed_style cfg = true -> style_in_range cfg = true ->
      texts_ok topic titles contents = true -> io_ok env topic = true ->
      exists path w',
        create_ppt env topic titles contents cfg w = (Ret path, w')).
Proof.
  intros n. split; [|split].
  - unfold create_ppt, build_slides. subst n.
    rewrite combine_firstn_min. reflexivity.
  - intros path w' H.
    apply create_ppt_deck in H as [prs (Hr & Hl & _ & Hi & _)]. eauto.
  - apply create_ppt_returns.
Qed.

End AssemblyOutcome.

(* ================================================================= *)
(** ** Output path *)

Section OutputPath.

Variable env : Env.

Lemma safe_topic_filter topic :
  safe_topic env topic = filter (kept_in_filename env) topic.
Proof.
  unfold safe_topic. apply filter_ext. intros c.
  unfold kept_in_filename. simpl. rewrite orb_false_r, !orb_assoc.
  reflexivity.
Qed.

(** C6. The path [create_ppt] returns is ["generated_ppt/"], then the
    topic filtered in order to its alphanumeric characters, spaces,
    underscores and hyphens, then ["_presentation.pptx"]; it depends on
    the topic alone, so a second run with the same topic returns the
    same path and replaces the file; the topic ["AI/ML: 2024!"] is
    sanitized to ["AIML 2024"]. *)
Theorem output_path_sanitized :
  (forall topic titles contents cfg w path w',
      create_ppt env topic titles contents cfg w = (Ret path, w') ->
      path = lit "generated_ppt/" ++ filter (kept_in_filename env) topic
             ++ lit "_presentation.pptx")
  /\ (forall topic titles1 contents1 cfg1 w1 path1 w1'
             titles2 contents2 cfg2 path2 w2',
         create_ppt env topic titles1 contents1 cfg1 w1 = (Ret path1, w1') ->
         create_ppt env topic titles2 contents2 cfg2 w1' = (Ret path2, w2') ->
         path2 = path1
         /\ read_file w2' path1
            = match build_slides env topic titles2 contents2 cfg2 with
              | Ret prs => Some prs
              | Raise _ => None
              end)
  /\ safe_topic env (lit "AI/ML: 2024!") = lit "AIML 2024".
Proof.
  split; [|split].
  - intros topic titles contents cfg w path w' H.
    apply create_ppt_inv in H as [prs [_ [-> _]]].
    unfold output_path. rewrite safe_topic_filter. reflexivity.
  - intros topic t1 c1 cfg1 w1 p1 w1' t2 c2 cfg2 p2 w2' H1 H2.
    apply create_ppt_inv in H1 as [prs1 [_ [-> _]]].
    apply create_ppt_inv in H2 as [prs2 [Hb [-> [_ Hr]]]].
    rewrite Hb. auto.
  - reflexivity.
Qed.

(** C8. When every colour that is parsed is ["#"] followed by six
    hexadecimal digits, each conversion to an RGB colour succeeds, and
    [create_ppt] does not raise on account of colour parsing: it
    either returns its path or raises an exception with another
    cause, which is a text the document library cannot store, a font
    size or an outline width it refuses, the default image or the
    file system; when texts, sizes and width are acceptable, only the
    last two remain. *)
Theorem well_formed_colors_parse topic titles contents cfg w :
  well_formed_style cfg = true ->
  (exists rgb, hex_rgb env (bg_color cfg) = Ret rgb)
  /\ (exists rgb, hex_rgb env (title_color cfg) = Ret rgb)
  /\ (exists rgb, hex_rgb env (content_color cfg) = Ret rgb)
  /\ (border_drawn cfg = true ->
      exists rgb, hex_rgb env (opt_str (border_color cfg)) = Ret rgb)
  /\ match fst (create_ppt env topic titles contents cfg w) with
     | Ret path => path = output_path env topic
     | Raise e =>
         library_error topic titles contents cfg e
         \/ raised_by_io env topic e
     end
  /\ (style_in_range cfg = true -> texts_ok topic titles contents = true ->
      match fst (create_ppt env topic titles contents cfg w) with
      | Ret path => path = output_path env topic
      | Raise e => raised_by_io env topic e
      end).
Proof.
  intros Hwf.
  destruct (well_formed_style_colors env cfg Hwf) as (Hg & Ht & Hc & Hb).
  pose proof (create_ppt_outcome env topic titles contents cfg w Hwf) as Ho.
  repeat split; try assumption.
  intros Hr Hx.
  destruct (fst (create_ppt env topic titles contents cfg w)) as [path|e];
    [exact Ho|].
  destruct Ho as [Ho|Ho]; [|exact Ho].
  exfalso. exact (no_library_error _ _ _ _ _ Hr Hx Ho).
Qed.

End OutputPath.

(* ================================================================= *)
(** ** The pipeline *)

Section Pipeline.

Variable env : Env.

Lemma for_each_content_returns titles key w :
  exists contents w',
    for_each (fun title => generate_slide_content env title key) titles w
    = (Ret contents, w')
    /\ length contents = length titles /\ disk w' = disk w.
Proof.
  revert w. induction titles as [|t ts IH]; intros w; simpl.
  - unfold ret. eauto.
  - unfold bind.
    destruct (generate_slide_content_returns env t key w)
      as [s [w1 [-> [Hd _]]]].
    destruct (IH w1) as [cs [w2 [-> [Hl Hd2]]]].
    unfold ret. do 2 eexists. split; [reflexivity|]. simpl.
    split; congruence.
Qed.

Lemma main_enters_pipeline ui w :
  ui_button ui = true -> truthy (ui_topic ui) = true ->
  main env ui w
  = (titles <- generate_slide_titles env (ui_topic ui)
                 (Some (ui_api_key ui)) ;;
     if match titles with [] => true | _ :: _ => false end
        || (length titles <? 1)%nat
     then show titles_error
     else
       contents <- for_each (fun title =>
                     generate_slide_content env title (Some (ui_api_key ui)))
                     titles ;;
       path <- create_ppt env (ui_topic ui) titles contents (ui_style ui) ;;
       show (StSuccess (9989%N :: lit " Presentation created!")) ;;;
       link <- get_download_link path ;;
       show (StMarkdown link)) (after_prelude w).
Proof.
  intros Hb Ht. unfold main. rewrite Hb, Ht. reflexivity.
Qed.

(** C7. Once the button is pressed with a topic: when
    [generate_slide_titles] returns no title, [main] shows the error
    and returns with the files as they were; when it raises, so does
    [main], again with the files as they were; when it returns titles,
    every content is generated (a paragraph or the sentinel), and with
    well-formed colours, sizes in range, texts the document library
    can store and a cooperating file system the deck built from these
    titles and contents is stored, one slide per title after the title
    slide, each holding its title and its content as the library
    stores them. *)
Theorem main_titles_gate ui w r w1 :
  ui_button ui = true -> truthy (ui_topic ui) = true ->
  generate_slide_titles env (ui_topic ui) (Some (ui_api_key ui))
    (after_prelude w) = (r, w1) ->
  match r with
  | Raise e => main env ui w = (Raise e, w1) /\ disk w1 = disk w
  | Ret [] =>
      main env ui w
      = (Ret tt, mkWorld (calls w1) (titles_error :: shown w1) (disk w1))
      /\ disk w1 = disk w
  | Ret (t :: ts) =>
      exists contents w2,
        for_each (fun title =>
                    generate_slide_content env title (Some (ui_api_key ui)))
                 (t :: ts) w1 = (Ret contents, w2)
        /\ length contents = length (t :: ts)
        /\ (well_formed_style (ui_style ui) = true ->
            style_in_range (ui_style ui) = true ->
            texts_ok (ui_topic ui) (t :: ts) contents = true ->
            io_ok env (ui_topic ui) = true ->
            exists prs w',
              main env ui w = (Ret tt, w')
              /\ read_file w' (output_path env (ui_topic ui)) = Some prs
              /\ length prs = S (length (t :: ts))
              /\ (forall i title content,
                     nth_error (t :: ts) i = Some title ->
                     nth_error contents i = Some content ->
                     exists s,
                       nth_error prs (S i) = Some s
                       /\ title_text s = Some (escape_ctrl_chars title)
                       /\ body_text s = Some (escape_ctrl_chars content)))
  end.
Proof.
  intros Hb Ht Hg.
  pose proof (main_enters_pipeline ui w Hb Ht) as Hm.
  pose proof (generate_slide_titles_inv env _ _ _ _ _ Hg) as [Hd _].
  simpl in Hd. unfold bind at 1 in Hm. rewrite Hg in Hm.
  destruct r as [[|t ts]|e]; [| |auto].
  - split; [|exact Hd]. rewrite Hm. reflexivity.
  - cbv beta iota in Hm.
    remember (t :: ts) as titles eqn:Etitles.
    assert (Hlt : (length titles <? 1)%nat = false) by (subst; reflexivity).
    rewrite Hlt in Hm. cbn [orb] in Hm. clear Etitles Hlt.
    destruct (for_each_content_returns titles (Some (ui_api_key ui)) w1)
      as [contents [w2 [Hc [Hl Hd2]]]].
    exists contents, w2. split; [exact Hc|]. split; [exact Hl|].
    intros Hwf Hrange Htexts Hio.
    destruct (create_ppt_returns env (ui_topic ui) titles contents
                (ui_style ui) w2 Hwf Hrange Htexts Hio) as [path [w3 Hp]].
    pose proof (create_ppt_deck env _ _ _ _ _ _ _ Hp)
      as [prs (Hr & Hn & _ & Hi & _)].
    pose proof (create_ppt_inv env _ _ _ _ _ _ _ Hp)
      as [prs' (_ & -> & -> & Hr')].
    rewrite Hl, Nat.min_id in Hn.
    exists prs. eexists.
    unfold bind in Hm. rewrite Hc, Hp in Hm. unfold show at 1 in Hm.
    unfold get_download_link in Hm.
    unfold read_file in *. cbn [disk] in *. rewrite Hr in Hm.
    rewrite index_last_split in Hm. unfold show in Hm.
    cbn [disk calls shown] in Hm.
    split; [exact Hm|]. cbn [disk]. rewrite Hr. auto.
Qed.

End Pipeline.

(* ================================================================= *)
(** ** The properties at concrete inputs *)


Lemma title_normalization_clean_edges_witness :
  clean_left in_strip_set (strip_chars [space] (lit "  Market Trends "))
  /\ clean_right in_strip_set (strip_chars [space] (lit "  Market Trends "))
  /\ strip_chars strip_set (lit "  Market Trends ")
     = strip_chars [space] (lit "  Market Trends ")
  /\ strip_chars strip_set (lit "1. Phase 2") = lit "Phase".
Proof.
  assert (Hl : clean_left in_strip_set
                 (strip_chars [space] (lit "  Market Trends ")))
    by (vm_compute; reflexivity).
  assert (Hr : clean_right in_strip_set
                 (strip_chars [space] (lit "  Market Trends ")))
    by (vm_compute; reflexivity).
  split; [exact Hl|]. split; [exact Hr|]. split.
  - exact (proj1 (proj2 (title_normalization_clean_edges
                           (lit "  Market Trends "))) Hl Hr).
  - apply (proj2 (proj2 (proj2 (proj2 (proj2
             (title_normalization_clean_edges (lit "1. Phase 2"))))))
             (lit "1. ") (lit "Phase") (lit " 2"));
      vm_compute; reflexivity.
Defined.

(** A line with a clean left edge loses the digit at its right edge,
    and a leading tab survives the normalization. *)
Lemma title_normalization_strips_right_edge :
  ~ (forall line,
        clean_left in_strip_set (strip line) ->
        strip_chars strip_set line = strip line)
  /\ strip_chars strip_set (lit "Phase 2") = lit "Phase"
  /\ strip (lit "Phase 2") = lit "Phase 2"
  /\ strip_chars strip_set (9%N :: lit "Intro") <> strip (9%N :: lit "Intro").
Proof.
  split; [|split; [|split]].
  - intros H. specialize (H (lit "Phase 2")).
    vm_compute in H. specialize (H eq_refl). discriminate H.
  - vm_compute. reflexivity.
  - vm_compute. reflexivity.
  - vm_compute. discriminate.
Qed.


Lemma local_content_after_last_colon_witness :
  exists w',
    generate_slide_content env_demo (lit "Solar Power") None w0
    = (Ret (lit "Solar Power" ++ [nl] ++ lit "2. Wind Energy"), w').
Proof.
  destruct (local_content_after_last_colon env_demo (lit "Solar Power") None
              (local_prompt (lit "Solar Power") ++ lit " Solar Power"
               ++ [nl] ++ lit "2. Wind Energy")
              w0 eq_refl eq_refl) as [w' [H _]].
  exists w'. exact H.
Defined.



Lemma no_border_without_width_witness :
  (border_width style_zero_width <= 0)%Z
  /\ exists prs,
       build_slides env_demo demo_topic demo_titles demo_contents
                    style_zero_width = Ret prs
       /\ Forall no_border prs.
Proof.
  assert (Hw : (border_width style_zero_width <= 0)%Z) by (simpl; lia).
  split; [exact Hw|].
  eexists. split; [vm_compute; reflexivity|].
  apply (proj1 (no_border_without_width env_demo demo_topic demo_titles
                  demo_contents style_zero_width Hw)).
  vm_compute. reflexivity.
Defined.

Lemma output_path_sanitized_witness :
  exists path w',
    create_ppt env_demo (lit "AI/ML: 2024!") demo_titles demo_contents
               default_style w0 = (Ret path, w')
    /\ path = lit "generated_ppt/"
              ++ filter (kept_in_filename env_demo) (lit "AI/ML: 2024!")
              ++ lit "_presentation.pptx"
    /\ path = lit "generated_ppt/AIML 2024_presentation.pptx".
Proof.
  destruct (create_ppt_returns env_demo (lit "AI/ML: 2024!") demo_titles
              demo_contents default_style w0 eq_refl eq_refl eq_refl eq_refl)
    as [path [w' H]].
  exists path, w'. split; [exact H|].
  pose proof (proj1 (output_path_sanitized env_demo) _ _ _ _ _ _ _ H) as Hp.
  split; [exact Hp|]. rewrite Hp. vm_compute. reflexivity.
Defined.

Lemma well_formed_colors_parse_witness :
  well_formed_style style_bordered = true
  /\ (exists rgb, hex_rgb env_demo (lit "#1e1E2f") = Ret rgb)
  /\ (exists rgb, hex_rgb env_demo (lit "#FF0000") = Ret rgb).
Proof.
  destruct (well_formed_colors_parse env_demo demo_topic demo_titles
              demo_contents style_bordered w0 eq_refl)
    as (Hg & _ & _ & Hb & _).
  split; [reflexivity|]. split; [exact Hg|exact (Hb eq_refl)].
Defined.

Lemma create_ppt_zip_truncates_witness :
  well_formed_style style_bordered = true
  /\ style_in_range style_bordered = true
  /\ texts_ok demo_topic demo_titles [lit "Only one paragraph."] = true
  /\ io_ok env_demo demo_topic = true
  /\ exists path w',
       create_ppt env_demo demo_topic demo_titles [lit "Only one paragraph."]
                  style_bordered w0 = (Ret path, w')
       /\ exists prs, read_file w' path = Some prs /\ length prs = 2%nat.
Proof.
  pose proof (create_ppt_zip_truncates env_demo demo_topic demo_titles
                [lit "Only one paragraph."] style_bordered w0) as H.
  cbv zeta in H. destruct H as [_ [Hdeck Hret]].
  split; [reflexivity|]. split; [reflexivity|].
  split; [reflexivity|]. split; [reflexivity|].
  destruct (Hret eq_refl eq_refl eq_refl eq_refl) as [path [w' H]].
  exists path, w'. split; [exact H|].
  destruct (Hdeck path w' H) as [prs (Hr & Hl & _)].
  exists prs. split; [exact Hr|exact Hl].
Defined.

Lemma main_titles_gate_witness :
  (main env_blank ui_demo w0
   = (Ret tt, mkWorld 1 (titles_error :: shown (after_prelude w0)) []))
  /\ (exists prs w',
         main env_flaky ui_demo w0 = (Ret tt, w')
         /\ read_file w' (output_path env_flaky demo_topic) = Some prs
         /\ length prs = 4%nat
         /\ exists s, nth_error prs 2 = Some s
                      /\ title_text s = Some (lit "Solar Power")
                      /\ body_text s = Some sentinel).
Proof.
  split.
  - assert (Hg : generate_slide_titles env_blank (ui_topic ui_demo)
                   (Some (ui_api_key ui_demo)) (after_prelude w0)
                 = (Ret [], mkWorld 1 (shown (after_prelude w0)) []))
      by (vm_compute; reflexivity).
    exact (proj1 (main_titles_gate env_blank ui_demo w0 _ _
                    eq_refl eq_refl Hg)).
  - assert (Hg : generate_slide_titles env_flaky (ui_topic ui_demo)
                   (Some (ui_api_key ui_demo)) (after_prelude w0)
                 = (Ret [lit "Generate 5 professional PowerPoint slide titles about: Renewable Energy";
                         lit "Solar Power"; lit "Wind Energy"],
                    mkWorld 1 (shown (after_prelude w0)) []))
      by (vm_compute; reflexivity).
    destruct (main_titles_gate env_flaky ui_demo w0 _ _ eq_refl eq_refl Hg)
      as [contents [w2 [Hc [_ Hdeck]]]].
    vm_compute in Hc. injection Hc as Hc Hw2.
    subst contents.
    destruct (Hdeck eq_refl eq_refl eq_refl eq_refl)
      as [prs [w' (Hm & Hr & Hl & Hi)]].
    exists prs, w'. split; [exact Hm|]. split; [exact Hr|].
    split; [exact Hl|].
    exact (Hi 1%nat (lit "Solar Power") sentinel eq_refl eq_refl).
Defined.

(* ================================================================= *)
(** ** Paths through title generation *)

Lemma split_app_sep sep a b :
  ~ In sep a -> split sep (a ++ sep :: b) = a :: split sep b.
Proof.
  induction a as [|c r IH]; simpl; intros H.
  - rewrite N.eqb_refl. reflexivity.
  - destruct (N.eqb_spec c sep) as [->|Hne]; [exfalso; auto|].
    rewrite IH by tauto. reflexivity.
Qed.

Lemma strip_by_keeps p s c :
  In c s -> p c = false -> strip_by p s <> [].
Proof.
  intros Hin Hc Hs.
  destruct (strip_by_decomp p s) as [a [b [E [Ha Hb]]]].
  rewrite Hs in E. simpl in E. rewrite E in Hin.
  apply in_app_or in Hin as [Hin|Hin];
    [rewrite forallb_forall in Ha; apply Ha in Hin
    |rewrite forallb_forall in Hb; apply Hb in Hin]; congruence.
Qed.

Lemma mem_false_not_in c chars : mem c chars = false -> ~ In c chars.
Proof.
  unfold mem. intros H Hin.
  assert (existsb (N.eqb c) chars = true)
    by (apply existsb_exists; exists c; split; [exact Hin|apply N.eqb_refl]).
  congruence.
Qed.

Lemma parse_titles_fusion lines :
  parse_titles lines
  = firstn 5 (map (strip_chars strip_set) (filter usable_line lines)).
Proof.
  unfold parse_titles, usable_line. f_equal.
  induction lines as [|l lines IH]; simpl; [reflexivity|].
  destruct (truthy (strip l)); simpl; [|exact IH].
  destruct (truthy (strip_chars strip_set l)); simpl; rewrite IH; reflexivity.
Qed.

(** X7. The titles are the normalizations of the first five usable
    lines, in their order; a line that is blank or holds nothing but
    enumeration marks is skipped without taking one of the five places,
    and whatever follows the fifth usable line is ignored. *)
Theorem titles_are_first_usable_lines (before after : list str) :
  parse_titles (before ++ after)
  = firstn 5 (map (strip_chars strip_set)
                  (filter usable_line before ++ filter usable_line after))
  /\ (forall junk, usable_line junk = false ->
        parse_titles (before ++ junk :: after) = parse_titles (before ++ after))
  /\ ((5 <= length (filter usable_line before))%nat ->
      parse_titles (before ++ after) = parse_titles before).
Proof.
  split; [|split].
  - rewrite parse_titles_fusion, filter_app. reflexivity.
  - intros junk Hj. rewrite !parse_titles_fusion, !filter_app. simpl.
    rewrite Hj. reflexivity.
  - intros H. rewrite !parse_titles_fusion, filter_app, map_app.
    rewrite firstn_app.
    replace (5 - length (map (strip_chars strip_set)
                           (filter usable_line before)))%nat with 0%nat
      by (rewrite length_map; lia).
    simpl. apply app_nil_r.
Qed.

Section TitlePaths.

Variable env : Env.

Lemma fallback_titles_run topic w :
  fallback_titles env topic w
  = (local_titles (generator env (calls w) (titles_prompt topic) 80),
     after_call w).
Proof.
  unfold fallback_titles, bind, call_generator, ret, local_titles, after_call.
  fold (titles_prompt topic).
  destruct (generator env (calls w) (titles_prompt topic) 80); reflexivity.
Qed.

(** X1. With a credential and a hosted answer that holds at least one
    title, the titles are those of the hosted answer: one backend call
    is made, the local model is not consulted and nothing is shown. *)
Theorem hosted_titles_used topic key content w t ts :
  truthy key = true ->
  openai_chat env (calls w) key titles_system_msg (titles_user_msg topic) 200
  = Ret (Some content) ->
  parse_titles (split nl content) = t :: ts ->
  generate_slide_titles env topic (Some key) w
  = (Ret (t :: ts), after_call w).
Proof.
  intros Hk Hc Hp. unfold generate_slide_titles.
  change (opt_truthy (Some key)) with (truthy key). rewrite Hk. unfold try_except, bind, call_openai, lift. change (opt_str (Some key)) with key.
  fold titles_system_msg. fold (titles_user_msg topic).
  rewrite Hc. simpl as_str. cbv iota. rewrite Hp. reflexivity.
Qed.

(** X2. With a credential, when the hosted call raises, or answers
    without content so that [content.split] fails on [None], a warning
    that quotes the error is shown and the result is that of the local
    model, called once. *)
Theorem hosted_error_uses_local_model topic key e w :
  truthy key = true ->
  (openai_chat env (calls w) key titles_system_msg (titles_user_msg topic) 200
   = Raise e
   \/ (openai_chat env (calls w) key titles_system_msg
         (titles_user_msg topic) 200 = Ret None
       /\ e = none_error (lit "split"))) ->
  generate_slide_titles env topic (Some key) w
  = (local_titles (generator env (S (calls w)) (titles_prompt topic) 80),
     after_call (after_show (openai_error_warning e) (after_call w))).
Proof.
  intros Hk Hc. unfold generate_slide_titles.
  change (opt_truthy (Some key)) with (truthy key). rewrite Hk. unfold try_except, bind at 1 2, call_openai, lift.
  change (opt_str (Some key)) with key. fold titles_system_msg. fold (titles_user_msg topic).
  destruct Hc as [Hc|[Hc ->]]; rewrite Hc; simpl as_str; cbv iota;
    unfold bind, show; rewrite fallback_titles_run; reflexivity.
Qed.

(** X3. With a credential, when the hosted answer holds no title, a
    warning is shown and the titles are those of the local model. *)
Theorem empty_hosted_answer_uses_local_model topic key content raw w :
  truthy key = true ->
  openai_chat env (calls w) key titles_system_msg (titles_user_msg topic) 200
  = Ret (Some content) ->
  parse_titles (split nl content) = [] ->
  generator env (S (calls w)) (titles_prompt topic) 80 = Ret raw ->
  generate_slide_titles env topic (Some key) w
  = (Ret (parse_titles (split nl raw)),
     after_call (after_show no_titles_warning (after_call w))).
Proof.
  intros Hk Hc Hp Hg. unfold generate_slide_titles.
  change (opt_truthy (Some key)) with (truthy key). rewrite Hk. unfold try_except, bind at 1 2, call_openai, lift.
  change (opt_str (Some key)) with key. fold titles_system_msg. fold (titles_user_msg topic).
  rewrite Hc. simpl as_str. cbv iota. rewrite Hp.
  unfold bind, show. rewrite fallback_titles_run. simpl calls.
  rewrite Hg. reflexivity.
Qed.

(** X4. The fallback of line 55 runs inside the [try]: when the hosted
    answer holds no title and the local model then raises, that
    exception is caught by line 57, reported as an OpenAI error, and
    the local model is called a second time. *)
Theorem local_failure_inside_try_retries topic key content e w :
  truthy key = true ->
  openai_chat env (calls w) key titles_system_msg (titles_user_msg topic) 200
  = Ret (Some content) ->
  parse_titles (split nl content) = [] ->
  generator env (S (calls w)) (titles_prompt topic) 80 = Raise e ->
  generate_slide_titles env topic (Some key) w
  = (local_titles (generator env (S (S (calls w))) (titles_prompt topic) 80),
     after_call (after_show (openai_error_warning e)
                   (after_call (after_show no_titles_warning (after_call w))))).
Proof.
  intros Hk Hc Hp Hg. unfold generate_slide_titles.
  change (opt_truthy (Some key)) with (truthy key). rewrite Hk. unfold try_except, bind at 1 2, call_openai, lift.
  change (opt_str (Some key)) with key. fold titles_system_msg. fold (titles_user_msg topic).
  rewrite Hc. simpl as_str. cbv iota. rewrite Hp.
  unfold bind, show. rewrite fallback_titles_run. simpl calls.
  rewrite Hg. unfold local_titles at 1. cbv iota.
  rewrite fallback_titles_run. reflexivity.
Qed.

(** X6. On the path without credential, a local model that returns
    the prompt followed by its continuation (as a text-generation
    pipeline does) makes the instruction line of the prompt the first
    title, so that at most four generated titles follow it. *)
Theorem prompt_echo_is_first_title topic key continuation w :
  opt_truthy key = false ->
  ~ In nl topic ->
  generator env (calls w) (titles_prompt topic) 80
  = Ret (titles_prompt topic ++ continuation) ->
  exists rest,
    generate_slide_titles env topic key w
    = (Ret (strip_chars strip_set (titles_user_msg topic) :: rest),
       after_call w)
    /\ (length rest <= 4)%nat.
Proof.
  intros Hk Hn Hg. unfold generate_slide_titles. rewrite Hk.
  rewrite fallback_titles_run, Hg. unfold local_titles.
  assert (Es : split nl (titles_prompt topic ++ continuation)
               = titles_user_msg topic
                 :: split nl (lit "1." ++ continuation)).
  { unfold titles_prompt, titles_user_msg.
    rewrite <- !app_assoc. rewrite app_assoc. simpl ([nl] ++ _).
    apply split_app_sep. intros Hin. apply in_app_or in Hin as [Hin|Hin].
    - revert Hin. apply mem_false_not_in. reflexivity.
    - exact (Hn Hin). }
  rewrite Es, parse_titles_fusion.
  assert (HG : In 71%N (titles_user_msg topic)).
  { unfold titles_user_msg. apply in_or_app. left. left. reflexivity. }
  assert (Hu : usable_line (titles_user_msg topic) = true).
  { unfold usable_line. apply andb_true_intro. split; apply truthy_nonempty.
    - exact (strip_by_keeps isspace _ 71%N HG eq_refl).
    - exact (strip_by_keeps (fun c => mem c strip_set) _ 71%N HG eq_refl). }
  cbn [filter]. rewrite Hu. cbn [map]. rewrite firstn_cons.
  eexists. split; [reflexivity|]. apply firstn_le_length.
Qed.

End TitlePaths.

(* ================================================================= *)
(** ** Paths through content generation *)

Section ContentPaths.

Variable env : Env.

Lemma generate_slide_content_one_call title key w :
  exists s w',
    generate_slide_content env title key w = (Ret s, w')
    /\ calls w' = S (calls w) /\ disk w' = disk w.
Proof.
  unfold generate_slide_content, try_except.
  destruct (opt_truthy key).
  - unfold bind, call_openai, lift, ret, show.
    destruct (openai_chat env _ _ _ _ _) as [[content|]|e]; simpl;
      do 2 eexists; (split; [reflexivity|]); simpl; auto.
  - unfold bind, call_generator, lift, ret, show.
    destruct (generator env _ _ _) as [raw|e]; simpl.
    + rewrite index_last_split.
      do 2 eexists; (split; [reflexivity|]); simpl; auto.
    + do 2 eexists; (split; [reflexivity|]); simpl; auto.
Qed.

(** X8. When the backend in use raises, or the hosted backend answers
    without content so that [content.strip] fails on [None],
    [generate_slide_content] returns the sentinel and shows one error
    that names the title and quotes the exception. *)
Theorem content_failure_is_reported title key e w :
  (opt_truthy key = true
   /\ (openai_chat env (calls w) (opt_str key) content_system_msg
         (content_user_msg title) 200 = Raise e
       \/ (openai_chat env (calls w) (opt_str key) content_system_msg
             (content_user_msg title) 200 = Ret None
           /\ e = none_error (lit "strip"))))
  \/ (opt_truthy key = false
      /\ generator env (calls w) (local_prompt title) 120 = Raise e) ->
  generate_slide_content env title key w
  = (Ret sentinel, after_show (content_error title e) (after_call w)).
Proof.
  unfold generate_slide_content, try_except.
  fold content_system_msg. fold (content_user_msg title).
  fold (local_prompt title).
  intros [[Hk [Hc|[Hc ->]]]|[Hk Hg]]; rewrite Hk;
    unfold bind, call_openai, call_generator, lift, ret, show.
  - rewrite Hc. reflexivity.
  - rewrite Hc. reflexivity.
  - rewrite Hg. reflexivity.
Qed.

(** X9. With a credential, the content is the whole hosted answer with
    its surrounding whitespace removed: nothing is cut at a colon, one
    backend call is made and nothing is shown. *)
Theorem hosted_content_is_trimmed_answer title key content w :
  truthy key = true ->
  openai_chat env (calls w) key content_system_msg (content_user_msg title) 200
  = Ret (Some content) ->
  generate_slide_content env title (Some key) w
  = (Ret (strip content), after_call w)
  /\ (forall c, In c (strip content) -> In c content)
  /\ (forall a b, content = a ++ colon :: b -> In colon (strip content)).
Proof.
  intros Hk Hc. split; [|split].
  - unfold generate_slide_content, try_except.
    change (opt_truthy (Some key)) with (truthy key). rewrite Hk.
    change (opt_str (Some key)) with key.
    fold content_system_msg. fold (content_user_msg title).
    unfold bind, call_openai, lift, ret. rewrite Hc. reflexivity.
  - intros c. apply strip_by_incl.
  - intros a b ->.
    destruct (strip_by_decomp isspace (a ++ colon :: b))
      as [pre [post [E [Hpre Hpost]]]].
    assert (Hin : In colon (pre ++ strip_by isspace (a ++ colon :: b) ++ post)).
    { rewrite <- E. apply in_or_app. right. left. reflexivity. }
    apply in_app_or in Hin as [Hin|Hin].
    + rewrite forallb_forall in Hpre. apply Hpre in Hin. discriminate Hin.
    + apply in_app_or in Hin as [Hin|Hin]; [exact Hin|].
      rewrite forallb_forall in Hpost. apply Hpost in Hin. discriminate Hin.
Qed.

(** X10. The comprehension of line 185 yields one content per title,
    in order: the content at position [i] is what
    [generate_slide_content] returns for the title at position [i] on
    the [i]-th backend call after the titles; no call raises and no
    file is touched. *)
Theorem contents_align_with_titles titles key w :
  exists contents w',
    for_each (fun title => generate_slide_content env title key) titles w
    = (Ret contents, w')
    /\ length contents = length titles
    /\ calls w' = (calls w + length titles)%nat
    /\ disk w' = disk w
    /\ (forall i title, nth_error titles i = Some title ->
          exists content wi wi',
            nth_error contents i = Some content
            /\ calls wi = (calls w + i)%nat
            /\ generate_slide_content env title key wi = (Ret content, wi')).
Proof.
  revert w. induction titles as [|t ts IH]; intros w.
  - exists [], w. simpl. unfold ret. repeat split; auto.
    intros [|i] title; discriminate.
  - destruct (generate_slide_content_one_call t key w)
      as [s [w1 [Hs [Hc Hd]]]].
    destruct (IH w1) as [cs [w2 [Hf [Hl [Hc2 [Hd2 Hi]]]]]].
    exists (s :: cs), w2. simpl. unfold bind. rewrite Hs, Hf. unfold ret.
    repeat split; simpl; try congruence; try lia.
    intros [|i] title Hn; simpl in Hn.
    + inversion Hn; subst. exists s, w, w1. simpl.
      repeat split; auto.
    + destruct (Hi i title Hn) as [c [wi [wi' [H1 [H2 H3]]]]].
      exists c, wi, wi'. simpl. repeat split; auto. lia.
Qed.

End ContentPaths.

(* ================================================================= *)
(** ** The shape of the deck *)

Lemma mapM_Forall2 {A B} (f : A -> outcome B) l l' :
  mapM f l = Ret l' -> Forall2 (fun x y => f x = Ret y) l l'.
Proof.
  revert l'. induction l as [|x l IH]; simpl; intros l' H.
  - inversion H. constructor.
  - destruct (f x) as [y|e] eqn:Ey; simpl in H; [|discriminate].
    destruct (mapM f l) as [ys|e]; simpl in H; [|discriminate].
    inversion H; subst. constructor; auto.
Qed.

Section DeckShape.

Variable env : Env.

Lemma style_run_inv size color r r' :
  style_run env size color r = Ret r' ->
  run_text r' = run_text r /\ run_styled env size color r'.
Proof.
  unfold style_run, set_font_size, run_styled.
  destruct (font_size_ok size); simpl; [|discriminate].
  destruct (hex_rgb env color) as [rgb|e] eqn:Ec; simpl; [|discriminate].
  intros H; inversion H; subst; simpl. eauto.
Qed.

Lemma style_runs_styled size color sh sh' :
  style_runs env size color sh = Ret sh' ->
  map (map run_text) (paragraphs sh') = map (map run_text) (paragraphs sh)
  /\ Forall (Forall (run_styled env size color)) (paragraphs sh').
Proof.
  unfold style_runs.
  destruct (mapM _ (paragraphs sh)) as [ps|e] eqn:Em; simpl; [|discriminate].
  intros H; inversion H; subst; simpl. clear H.
  apply mapM_Forall2 in Em.
  induction Em as [|p p' l l' Hp _ IH]; simpl; [auto|].
  destruct IH as [IH1 IH2].
  apply mapM_Forall2 in Hp.
  assert (Hq : map run_text p' = map run_text p
               /\ Forall (run_styled env size color) p').
  { clear -Hp. induction Hp as [|r r' q q' Hr _ IHq]; simpl; [auto|].
    apply style_run_inv in Hr as [Hr1 Hr2]. destruct IHq as [I1 I2].
    split; [congruence|constructor; assumption]. }
  destruct Hq as [Hq1 Hq2]. split; [congruence|constructor; assumption].
Qed.

Lemma set_text_runs s sh sh0 :
  set_text env s sh = Ret sh0 ->
  map (map run_text) (paragraphs sh0) = text_runs env (text sh0).
Proof.
  intros H. apply set_text_inv in H as [_ ->]. simpl. rewrite map_map.
  rewrite <- (map_id (text_runs env (escape_ctrl_chars s))) at 2.
  apply map_ext. intros p. rewrite map_map. simpl. apply map_id.
Qed.

Lemma styled_after_set_text size color s sh sh0 sh' :
  set_text env s sh = Ret sh0 ->
  style_runs env size color sh0 = Ret sh' ->
  idx sh' = idx sh /\ text sh' = escape_ctrl_chars s
  /\ line_rgb sh' = line_rgb sh /\ line_width sh' = line_width sh
  /\ shape_styled env size color sh'.
Proof.
  intros H0 H.
  pose proof (set_text_runs _ _ _ H0) as Hruns.
  pose proof (style_runs_inv env _ _ _ _ H) as (Hi & Ht & Hc & Hw).
  apply style_runs_styled in H as [Hm Hf].
  apply set_text_inv in H0 as [_ ->]. simpl in Hi, Ht, Hc, Hw, Hruns.
  split; [exact Hi|]. split; [exact Ht|]. split; [exact Hc|].
  split; [exact Hw|]. unfold shape_styled. split; [|exact Hf].
  rewrite Hm, Ht. exact Hruns.
Qed.

Lemma fill_body_inv cfg content sh sh' :
  idx sh = 1%Z -> has_border sh = false ->
  fill_placeholder env cfg content sh = Ret sh' ->
  idx sh' = 1%Z /\ text sh' = escape_ctrl_chars content
  /\ shape_styled env (content_size cfg) (content_color cfg) sh'
  /\ body_outline env cfg sh'.
Proof.
  intros Hi Hb. unfold fill_placeholder, body_outline.
  fold (border_drawn cfg). rewrite Hi. simpl.
  destruct (set_text env content sh) as [sh0|e] eqn:E0; simpl;
    [|discriminate].
  destruct (style_runs env _ _ _) as [sh1|e] eqn:Es; simpl; [|discriminate].
  apply (styled_after_set_text _ _ _ _ _ _ E0) in Es
    as (Si & St & Sc & Sw & Ss).
  destruct (border_drawn cfg).
  - destruct (hex_rgb env _) as [rgb|e] eqn:Eh; simpl; [|discriminate].
    destruct (line_width_ok _); [|discriminate].
    intros H; inversion H; subst; simpl.
    repeat split; auto; try congruence.
    + apply Ss.
    + apply Ss.
    + exists rgb. auto.
  - intros H; inversion H; subst.
    repeat split; auto; try congruence; try apply Ss.
    unfold has_border in *. rewrite Sc, Sw. exact Hb.
Qed.

Lemma add_content_slide_full cfg prs tc prs' :
  add_content_slide env cfg prs tc = Ret prs' ->
  exists fill slide,
    hex_rgb env (bg_color cfg) = Ret fill
    /\ prs' = prs ++ [slide]
    /\ styled_content_slide env cfg fill tc slide.
Proof.
  destruct tc as [title content].
  unfold add_content_slide, new_slide, on_title, set_background. simpl.
  destruct (hex_rgb env (bg_color cfg)) as [fill|e]; simpl; [|discriminate].
  destruct (set_text env title (new_placeholder 0)) as [tsh0|e] eqn:E0;
    simpl; [|discriminate].
  pose proof (set_text_inv env _ _ _ E0) as [_ Hshape].
  assert (Hi0 : idx tsh0 = 0%Z) by (rewrite Hshape; reflexivity).
  rewrite Hi0. simpl.
  destruct (style_runs env (title_size cfg) (title_color cfg) tsh0)
    as [tsh|e] eqn:Et; simpl; [|discriminate].
  apply (styled_after_set_text _ _ _ _ _ _ E0) in Et
    as (Ti & Tt & Tc & Tw & Ts).
  simpl in Ti, Tt, Tc, Tw. clear Hshape Hi0 E0.
  destruct (fill_placeholder env cfg content tsh) as [tsh'|e] eqn:Ft;
    simpl; [|discriminate].
  apply fill_placeholder_inv in Ft as (_ & _ & Fs & _).
  rewrite Ti in Fs. specialize (Fs eq_refl). subst tsh'.
  destruct (fill_placeholder env cfg content (new_placeholder 1))
    as [bsh|e] eqn:Fb; simpl; [|discriminate].
  apply fill_body_inv in Fb as (Bi & Bt & Bs & Bo); try reflexivity.
  assert (Hok : styled_content_slide env cfg fill (title, content)
                  (mkSlide 1 (Some fill) [tsh; bsh] (expected_pictures env))).
  { exists tsh, bsh. simpl. repeat split; auto; try apply Ts; try apply Bs.
    unfold has_border. rewrite Tc, Tw. reflexivity. }
  unfold expected_pictures in Hok.
  destruct (default_jpg env) as [[[]|e]|]; simpl; try discriminate;
    intros H; inversion H; subst; exists fill; eexists;
    (split; [reflexivity|]); (split; [reflexivity|]); exact Hok.
Qed.

Lemma foldM_add_content_slide_full cfg fill l prs prs' :
  hex_rgb env (bg_color cfg) = Ret fill ->
  foldM (add_content_slide env cfg) l prs = Ret prs' ->
  exists slides,
    prs' = prs ++ slides
    /\ Forall2 (styled_content_slide env cfg fill) l slides.
Proof.
  intros Hfill. revert prs. induction l as [|tc l IH]; simpl; intros prs H.
  - inversion H; subst. exists []. rewrite app_nil_r. auto.
  - destruct (add_content_slide env cfg prs tc) as [prs1|e] eqn:E;
      simpl in H; [|discriminate].
    apply add_content_slide_full in E as [fill' [slide [Hf' [-> Hs]]]].
    assert (fill' = fill) by congruence. subst fill'.
    apply IH in H as [slides [-> Hf]].
    exists (slide :: slides). rewrite <- app_assoc. simpl. auto.
Qed.

Lemma build_slides_full topic titles contents cfg prs :
  build_slides env topic titles contents cfg = Ret prs ->
  exists fill s0 slides,
    hex_rgb env (bg_color cfg) = Ret fill
    /\ prs = s0 :: slides
    /\ styled_title_slide env cfg fill topic s0
    /\ Forall2 (styled_content_slide env cfg fill)
               (combine titles contents) slides.
Proof.
  unfold build_slides, new_slide, on_title, set_background. simpl.
  destruct (set_text env topic (new_placeholder 0)) as [tsh0|e] eqn:E0;
    simpl; [|discriminate].
  pose proof (set_text_inv env _ _ _ E0) as [_ Hshape].
  assert (Hi0 : idx tsh0 = 0%Z) by (rewrite Hshape; reflexivity).
  destruct (hex_rgb env (bg_color cfg)) as [fill|e] eqn:Ef; simpl;
    [|discriminate].
  rewrite Hi0. simpl.
  destruct (style_runs env (title_size cfg) (title_color cfg) tsh0)
    as [tsh|e] eqn:Et; simpl; [|discriminate].
  apply (styled_after_set_text _ _ _ _ _ _ E0) in Et
    as (Ti & Tt & Tc & Tw & Ts).
  simpl in Ti, Tt, Tc, Tw. clear Hshape Hi0 E0. intros H.
  apply (foldM_add_content_slide_full cfg fill) in H as [slides [-> Hf]];
    [|exact Ef].
  exists fill. do 2 eexists. split; [reflexivity|].
  split; [reflexivity|]. split; [|exact Hf].
  exists tsh. repeat split; auto; try apply Ts.
  unfold has_border. rewrite Tc, Tw. reflexivity.
Qed.

(** X11. Every slide of a built deck has the parsed background colour
    as its solid fill. *)
Theorem deck_background_uniform topic titles contents cfg prs :
  build_slides env topic titles contents cfg = Ret prs ->
  exists fill,
    hex_rgb env (bg_color cfg) = Ret fill
    /\ Forall (fun s => background s = Some fill) prs.
Proof.
  intros H.
  apply build_slides_full in H as [fill [s0 [slides (Hf & -> & H0 & Hs)]]].
  exists fill. split; [exact Hf|]. constructor.
  - destruct H0 as [tsh [-> _]]. reflexivity.
  - clear -Hs. induction Hs as [|tc s l l' Hx _ IH]; constructor; auto.
    destruct Hx as [tsh [bsh [-> _]]]. reflexivity.
Qed.

(** X12. In a built deck the title placeholder of every slide holds
    the runs of its text, each with the title size and the parsed
    title colour; the body placeholder of every content slide holds
    the runs of its text, each with the content size and the parsed
    content colour; the subtitle of the title slide is left as the
    layout made it. *)
Theorem deck_text_styled topic titles contents cfg prs :
  build_slides env topic titles contents cfg = Ret prs ->
  Forall (fun s => exists sh,
              shapes_title s = Some sh
              /\ shape_styled env (title_size cfg) (title_color cfg) sh) prs
  /\ Forall (fun s => exists sh,
                 body_placeholder s = Some sh
                 /\ shape_styled env (content_size cfg) (content_color cfg) sh)
            (tl prs)
  /\ option_map body_placeholder (hd_error prs)
     = Some (Some (new_placeholder 1)).
Proof.
  intros H.
  apply build_slides_full in H as [fill [s0 [slides (Hf & -> & H0 & Hs)]]].
  destruct H0 as [tsh0 (-> & Ti0 & _ & Ts0 & _)].
  split; [|split].
  - constructor.
    + exists tsh0. unfold shapes_title. simpl. rewrite Ti0. auto.
    + clear -Hs. induction Hs as [|tc s l l' Hx _ IH]; constructor; auto.
      destruct Hx as [tsh [bsh (-> & Ti & _ & Ts & _)]].
      exists tsh. unfold shapes_title. simpl. rewrite Ti. auto.
  - simpl. clear -Hs.
    induction Hs as [|tc s l l' Hx _ IH]; constructor; auto.
    destruct Hx as [tsh [bsh (-> & Ti & _ & _ & _ & Bi & _ & Bs & _)]].
    exists bsh. unfold body_placeholder. simpl. rewrite Ti, Bi. auto.
  - simpl. unfold body_placeholder. simpl. rewrite Ti0. reflexivity.
Qed.

(** X13. When a border colour is given and the width is positive, the
    body placeholder of every content slide is outlined with the
    parsed border colour and the width in points, while no title
    placeholder and nothing on the title slide is outlined. *)
Theorem border_on_bodies_only topic titles contents cfg prs :
  border_drawn cfg = true ->
  build_slides env topic titles contents cfg = Ret prs ->
  Forall (fun s => exists sh rgb,
              body_placeholder s = Some sh
              /\ hex_rgb env (opt_str (border_color cfg)) = Ret rgb
              /\ line_rgb sh = Some rgb
              /\ line_width sh = Some (Pt (border_width cfg)))
         (tl prs)
  /\ Forall (fun s => exists sh,
                 shapes_title s = Some sh /\ has_border sh = false) prs
  /\ (exists s0, hd_error prs = Some s0 /\ no_border s0).
Proof.
  intros Hd H.
  apply build_slides_full in H as [fill [s0 [slides (Hf & -> & H0 & Hs)]]].
  destruct H0 as [tsh0 (-> & Ti0 & _ & _ & Tb0)].
  split; [|split].
  - simpl. clear -Hs Hd.
    induction Hs as [|tc s l l' Hx _ IH]; constructor; auto.
    destruct Hx as [tsh [bsh (-> & Ti & _ & _ & _ & Bi & _ & _ & Bo)]].
    unfold body_outline in Bo. rewrite Hd in Bo.
    destruct Bo as [rgb (B1 & B2 & B3)].
    exists bsh, rgb. unfold body_placeholder. simpl. rewrite Ti, Bi. auto.
  - constructor.
    + exists tsh0. unfold shapes_title. simpl. rewrite Ti0. auto.
    + clear -Hs. induction Hs as [|tc s l l' Hx _ IH]; constructor; auto.
      destruct Hx as [tsh [bsh (-> & Ti & _ & _ & Tb & _)]].
      exists tsh. unfold shapes_title. simpl. rewrite Ti. auto.
  - eexists. split; [reflexivity|].
    unfold no_border. simpl. repeat constructor. exact Tb0.
Qed.

(** X14. The title slide carries no picture; every content slide
    carries the default image, at its fixed position and width, when
    the file exists, and no picture otherwise. *)
Theorem default_image_on_content_slides topic titles contents cfg prs :
  build_slides env topic titles contents cfg = Ret prs ->
  option_map pictures (hd_error prs) = Some []
  /\ Forall (fun s => pictures s = expected_pictures env) (tl prs).
Proof.
  intros H.
  apply build_slides_full in H as [fill [s0 [slides (Hf & -> & H0 & Hs)]]].
  destruct H0 as [tsh0 (-> & _)]. split; [reflexivity|].
  simpl. clear -Hs. induction Hs as [|tc s l l' Hx _ IH]; constructor; auto.
  destruct Hx as [tsh [bsh (-> & _)]]. reflexivity.
Qed.

End DeckShape.

(* ================================================================= *)
(** ** Colours and files *)

Lemma hex_digit_hex_char upper d :
  (0 <= d <= 15)%Z -> hex_digit (hex_char upper d) = Some d.
Proof.
  intros H.
  assert (Hd : (d = 0 \/ d = 1 \/ d = 2 \/ d = 3 \/ d = 4 \/ d = 5 \/ d = 6
                \/ d = 7 \/ d = 8 \/ d = 9 \/ d = 10 \/ d = 11 \/ d = 12
                \/ d = 13 \/ d = 14 \/ d = 15)%Z) by lia.
  repeat (destruct Hd as [Hd|Hd]; [subst d; destruct upper; reflexivity|]).
  subst d; destruct upper; reflexivity.
Qed.


Section ColoursAndFiles.

Variable env : Env.

Lemma int16_hex_byte upper v :
  (0 <= v <= 255)%Z -> int16 env (hex_byte upper v) = Ret v.
Proof.
  intros Hv. unfold hex_byte, int16, hex_value.
  pose proof (Z.div_mod v 16 ltac:(lia)) as Hdm.
  pose proof (Z.mod_pos_bound v 16 ltac:(lia)) as Hm.
  assert (Hq : (0 <= v / 16 <= 15)%Z).
  { split; [apply Z.div_pos; lia|].
    assert (v / 16 < 16)%Z by (apply Z.div_lt_upper_bound; lia). lia. }
  rewrite !hex_digit_hex_char by lia. f_equal. lia.
Qed.

(** X18. Colour parsing inverts the usual notation: for components in
    [0, 255], the string ["#"] followed by two hexadecimal digits per
    component, in lower or upper case, is a well-formed colour and
    parses to exactly these components; the first character is never
    inspected and whatever follows the sixth digit is ignored. *)
Theorem hex_rgb_round_trip upper r g b :
  (0 <= r <= 255)%Z -> (0 <= g <= 255)%Z -> (0 <= b <= 255)%Z ->
  well_formed_color (format_hex_color upper r g b) = true
  /\ hex_rgb env (format_hex_color upper r g b) = Ret (RGB r g b)
  /\ (forall first rest,
         hex_rgb env (first :: hex_byte upper r ++ hex_byte upper g
                            ++ hex_byte upper b ++ rest)
         = Ret (RGB r g b)).
Proof.
  intros Hr Hg Hb.
  assert (Hdiv : forall v, (0 <= v <= 255)%Z ->
                           (0 <= v / 16 <= 15)%Z /\ (0 <= v mod 16 <= 15)%Z).
  { intros v Hv. pose proof (Z.mod_pos_bound v 16 ltac:(lia)).
    split; [|lia]. split; [apply Z.div_pos; lia|].
    assert (v / 16 < 16)%Z by (apply Z.div_lt_upper_bound; lia). lia. }
  assert (Hparse : forall first rest,
             hex_rgb env (first :: hex_byte upper r ++ hex_byte upper g
                                ++ hex_byte upper b ++ rest)
             = Ret (RGB r g b)).
  { intros first rest. unfold hex_rgb, slice.
    change (firstn (3 - 1) (skipn 1 (first :: hex_byte upper r
              ++ hex_byte upper g ++ hex_byte upper b ++ rest)))
      with (hex_byte upper r).
    change (firstn (5 - 3) (skipn 3 (first :: hex_byte upper r
              ++ hex_byte upper g ++ hex_byte upper b ++ rest)))
      with (hex_byte upper g).
    change (firstn (7 - 5) (skipn 5 (first :: hex_byte upper r
              ++ hex_byte upper g ++ hex_byte upper b ++ rest)))
      with (hex_byte upper b).
    rewrite !int16_hex_byte by assumption. simpl.
    apply mkRGBColor_in_range; assumption. }
  split; [|split; [|exact Hparse]].
  - unfold well_formed_color, format_hex_color, hex_byte, is_hex. simpl.
    destruct (Hdiv r Hr), (Hdiv g Hg), (Hdiv b Hb).
    rewrite !hex_digit_hex_char by assumption. reflexivity.
  - specialize (Hparse 35%N []). rewrite app_nil_r in Hparse. exact Hparse.
Qed.

Lemma hex_rgb_short c :
  (length c <= 5)%nat -> exists e, hex_rgb env c = Raise e.
Proof.
  intros Hl. unfold hex_rgb.
  assert (Hs : slice 5 7 c = []).
  { unfold slice. rewrite skipn_all2 by exact Hl. reflexivity. }
  rewrite Hs.
  destruct (int16 env (slice 1 3 c)) as [r|e]; simpl; [|eauto].
  destruct (int16 env (slice 3 5 c)) as [g|e]; simpl; eauto.
Qed.

(** X16. A background colour of fewer than six characters (the empty
    string included) makes [create_ppt] raise for every topic and
    every list of slides, before anything is written. *)
Theorem short_background_colour_raises topic titles contents cfg w :
  (length (bg_color cfg) <= 5)%nat ->
  exists e,
    build_slides env topic titles contents cfg = Raise e
    /\ create_ppt env topic titles contents cfg w = (Raise e, w).
Proof.
  intros Hl. destruct (hex_rgb_short _ Hl) as [e He].
  assert (Hb : exists e',
             build_slides env topic titles contents cfg = Raise e').
  { unfold build_slides, new_slide, on_title. simpl. rewrite He.
    destruct (set_text env topic (new_placeholder 0)); simpl; eauto. }
  destruct Hb as [e' Hb]. exists e'. split; [exact Hb|].
  unfold create_ppt, bind, lift. rewrite Hb. reflexivity.
Qed.


Lemma kept_in_safe_topic topic c :
  In c (safe_topic env topic) -> kept_in_filename env c = true.
Proof.
  rewrite safe_topic_filter. intros H. apply filter_In in H. apply H.
Qed.

Lemma output_path_split topic :
  split slash (output_path env topic)
  = [lit "generated_ppt"; presentation_file env topic].
Proof.
  unfold output_path, presentation_file.
  change (lit "generated_ppt/") with (lit "generated_ppt" ++ [slash]).
  rewrite <- app_assoc. simpl ([slash] ++ _).
  rewrite split_app_sep by (apply mem_false_not_in; reflexivity).
  rewrite split_no_sep; [reflexivity|].
  intros Hin. apply in_app_or in Hin as [Hin|Hin].
  - apply kept_in_safe_topic in Hin. discriminate Hin.
  - revert Hin. apply mem_false_not_in. reflexivity.
Qed.

(** X19. The file always lies directly in [generated_ppt]: whatever
    the topic, the sanitized name holds no slash, backslash, dot or
    NUL, so the path has exactly two components, the directory and
    the file name. *)
Theorem output_stays_in_directory topic :
  split slash (output_path env topic)
  = [lit "generated_ppt"; presentation_file env topic]
  /\ ~ In slash (safe_topic env topic)
  /\ ~ In backslash (safe_topic env topic)
  /\ ~ In dot (safe_topic env topic)
  /\ ~ In nul (safe_topic env topic).
Proof.
  split; [apply output_path_split|].
  repeat split; intros Hin; apply kept_in_safe_topic in Hin;
    discriminate Hin.
Qed.

(** X20. Characters that the filter drops do not distinguish topics:
    removing one from a topic leaves the output path unchanged, a
    topic made only of such characters gets the bare suffix as its
    file name, and sanitizing an already sanitized topic changes
    nothing. *)
Theorem dropped_characters_do_not_count before c after :
  kept_in_filename env c = false ->
  output_path env (before ++ c :: after) = output_path env (before ++ after)
  /\ (forall topic, Forall (fun x => kept_in_filename env x = false) topic ->
        output_path env topic = lit "generated_ppt/_presentation.pptx")
  /\ (forall topic, safe_topic env (safe_topic env topic)
                    = safe_topic env topic).
Proof.
  intros Hc. split; [|split].
  - unfold output_path. rewrite !safe_topic_filter, !filter_app. simpl.
    rewrite Hc. reflexivity.
  - intros topic Hall. unfold output_path. rewrite safe_topic_filter.
    replace (filter (kept_in_filename env) topic) with (@nil char);
      [reflexivity|].
    symmetry. apply filter_nil_iff. intros x Hx.
    rewrite Forall_forall in Hall. auto.
  - intros topic. rewrite !safe_topic_filter.
    induction topic as [|x l IH]; simpl; [reflexivity|].
    destruct (kept_in_filename env x) eqn:Ex; simpl; [|exact IH].
    rewrite Ex, IH. reflexivity.
Qed.

(** X21. Two topics with the same sanitized form share one file: the
    second run returns the same path and the deck of the first run
    can no longer be read there. *)
Theorem colliding_topics_overwrite topic1 topic2
        titles1 contents1 cfg1 titles2 contents2 cfg2 w path1 w1 path2 w2 :
  safe_topic env topic1 = safe_topic env topic2 ->
  create_ppt env topic1 titles1 contents1 cfg1 w = (Ret path1, w1) ->
  create_ppt env topic2 titles2 contents2 cfg2 w1 = (Ret path2, w2) ->
  path2 = path1
  /\ exists prs2,
       build_slides env topic2 titles2 contents2 cfg2 = Ret prs2
       /\ read_file w2 path1 = Some prs2.
Proof.
  intros Hs H1 H2.
  apply create_ppt_inv in H1 as [prs1 (_ & -> & _ & _)].
  apply create_ppt_inv in H2 as [prs2 (Hb & -> & _ & Hr)].
  assert (Hp : output_path env topic2 = output_path env topic1)
    by (unfold output_path; rewrite Hs; reflexivity).
  split; [exact Hp|]. exists prs2. split; [exact Hb|].
  rewrite <- Hp. exact Hr.
Qed.

(** X22. The download link of a file [create_ppt] has written holds
    the deck that was built and, as its file name, the sanitized topic
    with the fixed suffix, without the directory; for a path where no
    file exists [get_download_link] raises and changes nothing. *)
Theorem download_link_round_trip topic titles contents cfg w path w1 :
  create_ppt env topic titles contents cfg w = (Ret path, w1) ->
  (forall w2, disk w2 = disk w1 ->
     exists prs,
       build_slides env topic titles contents cfg = Ret prs
       /\ get_download_link path w2
          = (Ret (DownloadLink prs (presentation_file env topic)), w2))
  /\ (forall w2 missing, read_file w2 missing = None ->
        exists e, get_download_link missing w2 = (Raise e, w2)
                  /\ exn_class_of e = FileNotFoundError).
Proof.
  intros H. split.
  - intros w2 Hd.
    apply create_ppt_inv in H as [prs (Hb & -> & _ & Hr)].
    exists prs. split; [exact Hb|].
    unfold get_download_link.
    unfold read_file in *. rewrite Hd, Hr.
    rewrite index_last_split, output_path_split. reflexivity.
  - intros w2 missing Hm. unfold get_download_link. rewrite Hm.
    eexists. split; reflexivity.
Qed.

End ColoursAndFiles.

(* ================================================================= *)
(** ** Paths through the pipeline *)

Lemma for_each_content_calls (env : Env) titles key w :
  exists contents w',
    for_each (fun title => generate_slide_content env title key) titles w
    = (Ret contents, w')
    /\ length contents = length titles
    /\ calls w' = (calls w + length titles)%nat
    /\ disk w' = disk w.
Proof.
  revert w. induction titles as [|t ts IH]; intros w.
  - exists [], w. simpl. unfold ret. repeat split; auto.
  - destruct (generate_slide_content_one_call env t key w)
      as [s [w1 [Hs [Hc Hd]]]].
    destruct (IH w1) as [cs [w2 [Hf [Hl [Hc2 Hd2]]]]].
    exists (s :: cs), w2. simpl. unfold bind. rewrite Hs, Hf. unfold ret.
    repeat split; simpl; try congruence; lia.
Qed.

Section MainPaths.

Variable env : Env.


Lemma style_runs_total size color sh :
  (exists rgb, hex_rgb env color = Ret rgb) -> font_size_ok size = true ->
  exists sh', style_runs env size color sh = Ret sh'.
Proof.
  intros Hc Hs. pose proof (style_runs_outcome env size color sh Hc) as H.
  destruct (style_runs env size color sh) as [sh'|e]; [eauto|].
  destruct H as [_ H]. congruence.
Qed.

Lemma fill_placeholder_total cfg content sh :
  well_formed_style cfg = true -> style_in_range cfg = true ->
  xml_compatible content = true ->
  exists sh', fill_placeholder env cfg content sh = Ret sh'.
Proof.
  intros Hwf Hr Hx.
  pose proof (fill_placeholder_outcome env cfg content sh Hwf) as H.
  destruct (fill_placeholder env cfg content sh) as [sh'|e]; [eauto|].
  exfalso. unfold style_in_range in Hr.
  apply andb_prop in Hr as [Hs Hw]. apply andb_prop in Hs as [Ht Hc].
  destruct H as [[_ H]|[[_ H]|[_ [Hd H]]]]; try congruence.
  rewrite Hd in Hw. congruence.
Qed.

(** X17. When the default image exists but cannot be inserted, a deck
    with at least one content slide cannot be created even when
    nothing else stands in the way (well-formed colours, sizes in
    range, a topic and a first title and content the document library
    can store): [create_ppt] raises the image error and writes
    nothing. *)
Theorem unreadable_image_aborts_deck topic t ts c cs cfg e w :
  default_jpg env = Some (Raise e) ->
  well_formed_style cfg = true ->
  style_in_range cfg = true ->
  xml_compatible topic = true ->
  xml_compatible t = true ->
  xml_compatible c = true ->
  create_ppt env topic (t :: ts) (c :: cs) cfg w = (Raise e, w).
Proof.
  intros Hj Hwf Hr Hxtopic Hxt Hxc.
  destruct (well_formed_style_colors env cfg Hwf) as ([fill Hg] & Ht & _ & _).
  assert (Hsize : font_size_ok (title_size cfg) = true).
  { unfold style_in_range in Hr. apply andb_prop in Hr as [Hs _].
    apply andb_prop in Hs as [Hs _]. exact Hs. }
  assert (Hb : build_slides env topic (t :: ts) (c :: cs) cfg = Raise e).
  { unfold build_slides, new_slide, on_title, set_background. simpl.
    pose proof (set_text_outcome env topic (new_placeholder 0)) as Hs0.
    destruct (set_text env topic (new_placeholder 0)) as [tsh0|e0] eqn:E0;
      [|destruct Hs0; congruence].
    apply set_text_inv in E0 as [_ ->]. simpl. rewrite Hg. simpl.
    match goal with
    | |- context [style_runs env ?a ?b ?sh0] =>
        destruct (style_runs_total a b sh0 Ht Hsize) as [tsh ->]
    end.
    simpl. unfold add_content_slide, new_slide, on_title, set_background.
    simpl. rewrite Hg. simpl.
    pose proof (set_text_outcome env t (new_placeholder 0)) as Hs1.
    destruct (set_text env t (new_placeholder 0)) as [tsh1|e1] eqn:E1;
      [|destruct Hs1; congruence].
    apply set_text_inv in E1 as [_ ->]. simpl.
    match goal with
    | |- context [style_runs env ?a ?b ?sh0] =>
        destruct (style_runs_total a b sh0 Ht Hsize) as [tsh2 Et2];
        rewrite Et2
    end.
    simpl.
    destruct (fill_placeholder_total cfg c tsh2 Hwf Hr Hxc) as [tsh' ->].
    destruct (fill_placeholder_total cfg c (new_placeholder 1) Hwf Hr Hxc)
      as [bsh ->].
    simpl. rewrite Hj. reflexivity. }
  unfold create_ppt, bind, lift. rewrite Hb. reflexivity.
Qed.

(** X23. Without the button, or with the button and an empty topic,
    [main] returns without any backend call and without touching a
    file; in the second case it asks for a topic. *)
Theorem main_without_input ui w :
  (ui_button ui = false -> main env ui w = (Ret tt, after_widgets w))
  /\ (ui_button ui = true -> ui_topic ui = [] ->
      main env ui w
      = (Ret tt,
         after_show (StWarning (lit "Please enter a topic."))
                    (after_widgets w))).
Proof.
  split.
  - intros Hb. unfold main. rewrite Hb. reflexivity.
  - intros Hb Ht. unfold main. rewrite Hb, Ht. reflexivity.
Qed.

(** X5. A failure of the local model during title generation is not
    caught: without a credential, when the first call to the local
    model raises, [main] raises that exception, with no error shown
    and no file written. *)
Theorem main_local_title_failure_escapes ui e w :
  ui_button ui = true -> truthy (ui_topic ui) = true ->
  ui_api_key ui = [] ->
  generator env (calls w) (titles_prompt (ui_topic ui)) 80 = Raise e ->
  main env ui w = (Raise e, after_call (after_prelude w)).
Proof.
  intros Hb Ht Hk Hg.
  rewrite (main_enters_pipeline env ui w Hb Ht).
  unfold bind at 1. rewrite Hk.
  change (generate_slide_titles env (ui_topic ui) (Some []))
    with (fallback_titles env (ui_topic ui)).
  rewrite fallback_titles_run. simpl calls. rewrite Hg. reflexivity.
Qed.


(** X24. On a run in which titles and contents were generated and
    nothing stands in the way of the deck (well-formed colours, sizes
    in range, texts the document library can store, a cooperating
    file system), the last two messages are the success notice and the
    download link, which holds the stored deck and its file name; one
    backend call was made per title after the titles, and the only
    file added is the presentation. *)
Theorem main_success_messages ui w t ts w1 contents w2 :
  ui_button ui = true -> truthy (ui_topic ui) = true ->
  generate_slide_titles env (ui_topic ui) (Some (ui_api_key ui))
    (after_prelude w) = (Ret (t :: ts), w1) ->
  for_each (fun title =>
              generate_slide_content env title (Some (ui_api_key ui)))
           (t :: ts) w1 = (Ret contents, w2) ->
  well_formed_style (ui_style ui) = true ->
  style_in_range (ui_style ui) = true ->
  texts_ok (ui_topic ui) (t :: ts) contents = true ->
  io_ok env (ui_topic ui) = true ->
  exists prs,
    build_slides env (ui_topic ui) (t :: ts) contents (ui_style ui)
    = Ret prs
    /\ main env ui w
       = (Ret tt,
          mkWorld (calls w1 + length (t :: ts))
            (StMarkdown (DownloadLink prs (presentation_file env (ui_topic ui)))
             :: success_message :: shown w2)
            ((output_path env (ui_topic ui), prs) :: disk w)).
Proof.
  intros Hb Ht Hg Hc Hwf Hrange Htexts Hio.
  pose proof (generate_slide_titles_inv env _ _ _ _ _ Hg) as [Hd _].
  simpl in Hd.
  pose proof (main_enters_pipeline env ui w Hb Ht) as Hm.
  unfold bind at 1 in Hm. rewrite Hg in Hm. cbv beta iota in Hm.
  remember (t :: ts) as titles eqn:Etitles.
  assert (Hlt : (length titles <? 1)%nat = false) by (subst; reflexivity).
  rewrite Hlt in Hm. cbn [orb] in Hm. clear Etitles Hlt.
  destruct (for_each_content_calls env titles (Some (ui_api_key ui)) w1)
    as [contents' [w2' (Hc' & Hl & Hcalls & Hd2)]].
  rewrite Hc in Hc'. inversion Hc'; subst contents' w2'. clear Hc'.
  destruct (create_ppt_returns env (ui_topic ui) titles contents
              (ui_style ui) w2 Hwf Hrange Htexts Hio) as [path [w3 Hp]].
  pose proof (create_ppt_inv env _ _ _ _ _ _ _ Hp)
    as [prs (Hbuild & -> & -> & Hr)].
  exists prs. split; [exact Hbuild|].
  unfold bind in Hm. rewrite Hc, Hp in Hm. unfold show at 1 in Hm.
  unfold get_download_link in Hm.
  unfold read_file in *. cbn [disk] in *. rewrite Hr in Hm.
  rewrite index_last_split, output_path_split in Hm. unfold show in Hm.
  cbn [disk calls shown last] in Hm.
  rewrite Hm. unfold success_message. rewrite Hcalls, Hd2, Hd. reflexivity.
Qed.

End MainPaths.

(* ================================================================= *)
(** ** Further properties at concrete inputs *)

Lemma hosted_titles_used_witness :
  generate_slide_titles env_hosted demo_topic (Some demo_key) w0
  = (Ret [lit "Solar Power"; lit "Wind Energy"], after_call w0).
Proof.
  apply (hosted_titles_used env_hosted demo_topic demo_key two_lines w0);
    reflexivity.
Defined.

Lemma hosted_error_uses_local_model_witness :
  generate_slide_titles env_offline demo_topic (Some demo_key) w0
  = (local_titles (generator env_offline 1 (titles_prompt demo_topic) 80),
     after_call (after_show (openai_error_warning connection_error)
                            (after_call w0)))
  /\ generate_slide_titles env_no_content demo_topic (Some demo_key) w0
     = (Ret [lit "Solar Power"; lit "Wind Energy"],
        after_call
          (after_show
             (StWarning (lit "OpenAI error: 'NoneType' object has no attribute 'split'. Using fallback model."))
             (after_call w0))).
Proof.
  split.
  - apply (hosted_error_uses_local_model env_offline demo_topic demo_key
             connection_error w0); [reflexivity|left; reflexivity].
  - apply (hosted_error_uses_local_model env_no_content demo_topic demo_key
             (none_error (lit "split")) w0);
      [reflexivity|right; split; reflexivity].
Defined.

Lemma empty_hosted_answer_uses_local_model_witness :
  generate_slide_titles env_empty_then_local demo_topic (Some demo_key) w0
  = (Ret (parse_titles (split nl two_lines)),
     after_call (after_show no_titles_warning (after_call w0))).
Proof.
  apply (empty_hosted_answer_uses_local_model env_empty_then_local
           demo_topic demo_key (lit "1. 2.") two_lines w0); reflexivity.
Defined.

Lemma local_failure_inside_try_retries_witness :
  generate_slide_titles env_empty_answer demo_topic (Some demo_key) w0
  = (local_titles (generator env_empty_answer 2 (titles_prompt demo_topic) 80),
     after_call (after_show (openai_error_warning connection_error)
                   (after_call (after_show no_titles_warning
                                           (after_call w0))))).
Proof.
  apply (local_failure_inside_try_retries env_empty_answer demo_topic
           demo_key (lit "1. 2.") connection_error w0); reflexivity.
Defined.

Lemma prompt_echo_is_first_title_witness :
  exists rest,
    generate_slide_titles env_offline demo_topic None w0
    = (Ret (strip_chars strip_set (titles_user_msg demo_topic) :: rest),
       after_call w0)
    /\ (length rest <= 4)%nat.
Proof.
  apply (prompt_echo_is_first_title env_offline demo_topic None
           (lit " Solar Power") w0).
  - reflexivity.
  - apply mem_false_not_in. reflexivity.
  - reflexivity.
Defined.

Lemma titles_are_first_usable_lines_witness :
  usable_line (lit "1. ") = false
  /\ parse_titles ([lit "1. Solar"] ++ lit "1. " :: [lit "2. Wind"])
     = parse_titles ([lit "1. Solar"] ++ [lit "2. Wind"])
  /\ parse_titles ([lit "a"; lit "b"; lit "c"; lit "d"; lit "e"] ++ [lit "f"])
     = parse_titles [lit "a"; lit "b"; lit "c"; lit "d"; lit "e"].
Proof.
  split; [reflexivity|]. split.
  - exact (proj1 (proj2 (titles_are_first_usable_lines
                           [lit "1. Solar"] [lit "2. Wind"]))
                 (lit "1. ") eq_refl).
  - apply (proj2 (proj2 (titles_are_first_usable_lines
                           [lit "a"; lit "b"; lit "c"; lit "d"; lit "e"]
                           [lit "f"]))).
    vm_compute. reflexivity.
Defined.

Lemma content_failure_is_reported_witness :
  generate_slide_content env_no_model (lit "Solar Power") None w0
  = (Ret sentinel,
     after_show (content_error (lit "Solar Power") connection_error)
                (after_call w0))
  /\ generate_slide_content env_no_content (lit "Solar Power")
                            (Some demo_key) w0
     = (Ret sentinel,
        after_show
          (StError (lit "Error generating content for 'Solar Power': 'NoneType' object has no attribute 'strip'"))
          (after_call w0)).
Proof.
  split.
  - apply (content_failure_is_reported env_no_model (lit "Solar Power") None
             connection_error w0).
    right. split; reflexivity.
  - apply (content_failure_is_reported env_no_content (lit "Solar Power")
             (Some demo_key) (none_error (lit "strip")) w0).
    left. split; [reflexivity|]. right. split; reflexivity.
Defined.

Lemma hosted_content_is_trimmed_answer_witness :
  generate_slide_content env_hosted (lit "Solar Power") (Some demo_key) w0
  = (Ret (strip two_lines), after_call w0).
Proof.
  exact (proj1 (hosted_content_is_trimmed_answer env_hosted
                  (lit "Solar Power") demo_key two_lines w0
                  eq_refl eq_refl)).
Defined.

Lemma contents_align_with_titles_witness :
  exists contents w',
    for_each (fun title => generate_slide_content env_demo title None)
             demo_titles w0 = (Ret contents, w')
    /\ length contents = 3%nat
    /\ exists content wi wi',
         nth_error contents 2 = Some content
         /\ calls wi = 2%nat
         /\ generate_slide_content env_demo (lit "Storage") None wi
            = (Ret content, wi').
Proof.
  destruct (contents_align_with_titles env_demo demo_titles None w0)
    as [contents [w' (Hf & Hl & _ & _ & Hi)]].
  exists contents, w'. split; [exact Hf|]. split; [exact Hl|].
  exact (Hi 2%nat (lit "Storage") eq_refl).
Defined.

Lemma deck_background_uniform_witness :
  build_slides env_demo demo_topic demo_titles demo_contents style_bordered
  = Ret (demo_deck env_demo style_bordered)
  /\ exists fill,
       hex_rgb env_demo (lit "#1e1E2f") = Ret fill
       /\ Forall (fun s => background s = Some fill)
                 (demo_deck env_demo style_bordered).
Proof.
  assert (H : build_slides env_demo demo_topic demo_titles demo_contents
                style_bordered = Ret (demo_deck env_demo style_bordered))
    by (vm_compute; reflexivity).
  split; [exact H|].
  exact (deck_background_uniform env_demo _ _ _ _ _ H).
Defined.

Lemma deck_text_styled_witness :
  build_slides env_demo demo_topic demo_titles demo_contents style_bordered
  = Ret (demo_deck env_demo style_bordered)
  /\ Forall (fun s => exists sh,
                 shapes_title s = Some sh
                 /\ shape_styled env_demo 36 (lit "#FFFFFF") sh)
            (demo_deck env_demo style_bordered).
Proof.
  assert (H : build_slides env_demo demo_topic demo_titles demo_contents
                style_bordered = Ret (demo_deck env_demo style_bordered))
    by (vm_compute; reflexivity).
  split; [exact H|].
  exact (proj1 (deck_text_styled env_demo _ _ _ _ _ H)).
Defined.

Lemma border_on_bodies_only_witness :
  border_drawn style_bordered = true
  /\ build_slides env_demo demo_topic demo_titles demo_contents style_bordered
     = Ret (demo_deck env_demo style_bordered)
  /\ Forall (fun s => exists sh rgb,
                 body_placeholder s = Some sh
                 /\ hex_rgb env_demo (lit "#FF0000") = Ret rgb
                 /\ line_rgb sh = Some rgb
                 /\ line_width sh = Some (Pt 2))
            (tl (demo_deck env_demo style_bordered)).
Proof.
  assert (H : build_slides env_demo demo_topic demo_titles demo_contents
                style_bordered = Ret (demo_deck env_demo style_bordered))
    by (vm_compute; reflexivity).
  split; [reflexivity|]. split; [exact H|].
  exact (proj1 (border_on_bodies_only env_demo demo_topic demo_titles
                  demo_contents style_bordered _ eq_refl H)).
Defined.

Lemma default_image_on_content_slides_witness :
  build_slides env_with_image demo_topic demo_titles demo_contents
               default_style
  = Ret (demo_deck env_with_image default_style)
  /\ Forall (fun s => pictures s = [default_picture])
            (tl (demo_deck env_with_image default_style)).
Proof.
  assert (H : build_slides env_with_image demo_topic demo_titles
                demo_contents default_style
              = Ret (demo_deck env_with_image default_style))
    by (vm_compute; reflexivity).
  split; [exact H|].
  exact (proj2 (default_image_on_content_slides env_with_image _ _ _ _ _ H)).
Defined.


Lemma short_background_colour_raises_witness :
  (length (bg_color style_short_bg) <= 5)%nat
  /\ exists e,
       build_slides env_demo demo_topic demo_titles demo_contents
                    style_short_bg = Raise e
       /\ create_ppt env_demo demo_topic demo_titles demo_contents
                     style_short_bg w0 = (Raise e, w0).
Proof.
  assert (Hl : (length (bg_color style_short_bg) <= 5)%nat)
    by (vm_compute; lia).
  split; [exact Hl|].
  exact (short_background_colour_raises env_demo demo_topic demo_titles
           demo_contents style_short_bg w0 Hl).
Defined.

Lemma unreadable_image_aborts_deck_witness :
  create_ppt env_bad_image demo_topic demo_titles demo_contents
             default_style w0
  = (Raise (Exc OSError (lit "cannot identify image file")), w0).
Proof.
  apply (unreadable_image_aborts_deck env_bad_image demo_topic
           (lit "Solar Power") [lit "Wind Energy"; lit "Storage"]
           (lit "Sunlight becomes electricity.")
           [lit "Turbines turn wind into power."; sentinel]
           default_style _ w0); reflexivity.
Defined.

Lemma hex_rgb_round_trip_witness :
  format_hex_color false 30 30 47 = lit "#1e1e2f"
  /\ hex_rgb env_demo (lit "#1e1e2f") = Ret (RGB 30 30 47)
  /\ hex_rgb env_demo (lit "#1E1E2F") = Ret (RGB 30 30 47).
Proof.
  split; [reflexivity|]. split.
  - exact (proj1 (proj2 (hex_rgb_round_trip env_demo false 30 30 47
                           ltac:(lia) ltac:(lia) ltac:(lia)))).
  - exact (proj1 (proj2 (hex_rgb_round_trip env_demo true 30 30 47
                           ltac:(lia) ltac:(lia) ltac:(lia)))).
Defined.

Lemma dropped_characters_do_not_count_witness :
  kept_in_filename env_demo 47%N = false
  /\ output_path env_demo (lit "AI" ++ 47%N :: lit "ML")
     = output_path env_demo (lit "AI" ++ lit "ML").
Proof.
  split; [reflexivity|].
  exact (proj1 (dropped_characters_do_not_count env_demo (lit "AI") 47%N
                  (lit "ML") eq_refl)).
Defined.

Lemma colliding_topics_overwrite_witness :
  exists path1 w1 path2 w2,
    create_ppt env_demo (lit "AI/ML") demo_titles demo_contents
               default_style w0 = (Ret path1, w1)
    /\ create_ppt env_demo (lit "AIML") [] [] style_bordered w1
       = (Ret path2, w2)
    /\ path2 = path1
    /\ exists prs2,
         build_slides env_demo (lit "AIML") [] [] style_bordered = Ret prs2
         /\ read_file w2 path1 = Some prs2.
Proof.
  destruct (create_ppt_returns env_demo (lit "AI/ML") demo_titles
              demo_contents default_style w0 eq_refl eq_refl eq_refl eq_refl)
    as [path1 [w1 H1]].
  destruct (create_ppt_returns env_demo (lit "AIML") [] [] style_bordered
              w1 eq_refl eq_refl eq_refl eq_refl) as [path2 [w2 H2]].
  exists path1, w1, path2, w2. split; [exact H1|]. split; [exact H2|].
  exact (colliding_topics_overwrite env_demo (lit "AI/ML") (lit "AIML")
           _ _ _ _ _ _ _ _ _ _ _ eq_refl H1 H2).
Defined.

Lemma download_link_round_trip_witness :
  exists path w1 prs,
    create_ppt env_demo demo_topic demo_titles demo_contents
               default_style w0 = (Ret path, w1)
    /\ get_download_link path (after_show success_message w1)
       = (Ret (DownloadLink prs (lit "Renewable Energy_presentation.pptx")),
          after_show success_message w1).
Proof.
  destruct (create_ppt_returns env_demo demo_topic demo_titles
              demo_contents default_style w0 eq_refl eq_refl eq_refl eq_refl)
    as [path [w1 H1]].
  destruct (proj1 (download_link_round_trip env_demo _ _ _ _ _ _ _ H1)
                  (after_show success_message w1) eq_refl)
    as [prs [_ Hl]].
  exists path, w1, prs. split; [exact H1|exact Hl].
Defined.

Lemma main_without_input_witness :
  main env_demo ui_idle w0 = (Ret tt, after_widgets w0)
  /\ main env_demo ui_no_topic w0
     = (Ret tt,
        after_show (StWarning (lit "Please enter a topic."))
                   (after_widgets w0)).
Proof.
  split.
  - exact (proj1 (main_without_input env_demo ui_idle w0) eq_refl).
  - exact (proj2 (main_without_input env_demo ui_no_topic w0)
                 eq_refl eq_refl).
Defined.

Lemma main_local_title_failure_escapes_witness :
  main env_no_model ui_demo w0
  = (Raise connection_error, after_call (after_prelude w0)).
Proof.
  apply (main_local_title_failure_escapes env_no_model ui_demo
           connection_error w0); reflexivity.
Defined.


Lemma main_success_messages_witness :
  exists prs,
    main env_demo ui_demo w0
    = (Ret tt,
       mkWorld 4
         (StMarkdown
            (DownloadLink prs (lit "Renewable Energy_presentation.pptx"))
          :: success_message :: shown (after_prelude w0))
         [(lit "generated_ppt/Renewable Energy_presentation.pptx", prs)]).
Proof.
  assert (Hg : generate_slide_titles env_demo (ui_topic ui_demo)
                 (Some (ui_api_key ui_demo)) (after_prelude w0)
               = (Ret [lit "Generate 5 professional PowerPoint slide titles about: Renewable Energy";
                       lit "Solar Power"; lit "Wind Energy"],
                  mkWorld 1 (shown (after_prelude w0)) []))
    by (vm_compute; reflexivity).
  assert (Hc : for_each (fun title =>
                 generate_slide_content env_demo title
                                        (Some (ui_api_key ui_demo)))
                 [lit "Generate 5 professional PowerPoint slide titles about: Renewable Energy";
                  lit "Solar Power"; lit "Wind Energy"]
                 (mkWorld 1 (shown (after_prelude w0)) [])
               = (Ret [lit "Solar Power" ++ [nl] ++ lit "2. Wind Energy";
                       lit "Solar Power" ++ [nl] ++ lit "2. Wind Energy";
                       lit "Solar Power" ++ [nl] ++ lit "2. Wind Energy"],
                  mkWorld 4 (shown (after_prelude w0)) []))
    by (vm_compute; reflexivity).
  destruct (main_success_messages env_demo ui_demo w0 _ _ _ _ _
              eq_refl eq_refl Hg Hc eq_refl eq_refl eq_refl eq_refl)
    as [prs [_ Hm]].
  exists prs. exact Hm.
Defined.
